(** * MapMyShots: photo navigation, marker sampling, route length, uploads, GPX

    A shallow embedding of the numeric helpers and event handlers of
    [src/App.tsx], [src/components/ImageViewer.tsx] and [src/utils/gpx.ts],
    with the properties the specification states about them, followed by
    the other handlers of [src/App.tsx] and the marker lists of both map
    components with properties read off the code. *)

From Stdlib Require Import ZArith QArith Lia List Bool String Ascii.
From Stdlib Require Import Lqa.
From Stdlib Require Floats DecimalString.
From Stdlib Require Import Sorted.
From Equations Require Import Equations.
Import ListNotations.

(* ================================================================= *)
(** ** The image record ([ImageMetadata] of types/index.ts)           *)
(* ================================================================= *)

Module Types.

(** A [Date], by its time value in milliseconds. *)
Definition Date := Z.

(** [interface ImageMetadata]; [number] is the carrier chosen for JavaScript
    numbers, binary64 floats throughout;
    a field marked [?] in the interface is an [option]. *)
Record ImageMetadata (number : Type) : Type := mkImage {
  latitude : number;
  longitude : number;
  timestamp : option Date;
  make : option string;
  model : option string;
  fileName : string;
  url : string;
  altitude : option number;
  exposureTime : option number;
  fNumber : option number;
  iso : option number;
  focalLength : option number
}.

Arguments mkImage {number}.
Arguments latitude {number}.
Arguments longitude {number}.
Arguments timestamp {number}.
Arguments make {number}.
Arguments model {number}.
Arguments fileName {number}.
Arguments url {number}.
Arguments altitude {number}.
Arguments exposureTime {number}.
Arguments fNumber {number}.
Arguments iso {number}.
Arguments focalLength {number}.

End Types.

(* ================================================================= *)
(** ** JavaScript values the handlers rely on                         *)
(* ================================================================= *)

Module JS.

(** A JavaScript number is a binary64 float. *)
Definition number := PrimFloat.float.

(** [ToBoolean] of a number: [0], [-0] and [NaN] are falsy. *)
Definition truthy (x : number) : bool :=
  negb (PrimFloat.eqb x PrimFloat.zero || PrimFloat.is_nan x).

(** [a || b] where [a] may be [undefined] and a present value is an object
    or a non-empty string. *)
Definition or_else {A : Type} (a b : option A) : option A :=
  match a with
  | Some _ => a
  | None => b
  end.

(** [s || d] on strings: the empty string is falsy, [null] is [None]. *)
Definition string_or (s : option string) (d : string) : string :=
  match s with
  | Some EmptyString => d
  | Some v => v
  | None => d
  end.

(** The outcome of an awaited call or of a [try] block. *)
Inductive outcome (A : Type) : Type :=
| Returned (a : A)
| Threw (message : string).

Arguments Returned {A}.
Arguments Threw {A}.

Definition bind {A B : Type} (m : outcome A) (k : A -> outcome B) : outcome B :=
  match m with
  | Returned a => k a
  | Threw msg => Threw msg
  end.

(** [for (let i = start; i < start + count; i++) acc = body(i, acc)] *)
Fixpoint for_range {A : Type} (count : nat) (i : nat)
    (body : nat -> A -> outcome A) (acc : A) : outcome A :=
  match count with
  | O => Returned acc
  | S remaining => bind (body i acc) (for_range remaining (S i) body)
  end.

(** *** [parseFloat], after ECMAScript's StrDecimalLiteral

    The builtin skips leading white space (the ASCII one here), reads the
    longest prefix that is a decimal literal and returns the binary64 float
    nearest to its value, or [NaN] when there is no such prefix. *)

Definition is_white (c : ascii) : bool :=
  let n := nat_of_ascii c in
  (Nat.eqb n 9 || Nat.eqb n 10 || Nat.eqb n 11 || Nat.eqb n 12 ||
   Nat.eqb n 13 || Nat.eqb n 32)%bool.

Fixpoint trim_start (s : string) : string :=
  match s with
  | String c rest => if is_white c then trim_start rest else s
  | EmptyString => s
  end.

Definition digit_of (c : ascii) : option N :=
  let n := N_of_ascii c in
  if (N.leb 48 n && N.leb n 57)%bool then Some (n - 48)%N else None.

(** Reads the longest run of digits: the accumulated value, the number of
    digits read and the rest of the string. *)
Fixpoint read_digits (s : string) (acc : N) (count : nat) : N * nat * string :=
  match s with
  | String c rest =>
      match digit_of c with
      | Some d => read_digits rest (acc * 10 + d)%N (S count)
      | None => (acc, count, s)
      end
  | EmptyString => (acc, count, s)
  end.

Definition read_sign (s : string) : bool * string :=
  match s with
  | String "-"%char rest => (true, rest)
  | String "+"%char rest => (false, rest)
  | _ => (false, s)
  end.

(** The value of an ExponentPart at the head of [s], 0 when there is none. *)
Definition read_exponent (s : string) : Z :=
  match s with
  | String c rest =>
      if (Ascii.eqb c "e" || Ascii.eqb c "E")%bool then
        let (neg, ds) := read_sign rest in
        let '(v, n, _) := read_digits ds 0%N 0%nat in
        match n with
        | O => 0%Z
        | S _ => if neg then (- Z.of_N v)%Z else Z.of_N v
        end
      else 0%Z
  | EmptyString => 0%Z
  end.

(** The binary64 float nearest to [m * 10^e], ties to even. *)
Definition decimal_to_number (neg : bool) (m : N) (e : Z) : number :=
  match m with
  | N0 => if neg then PrimFloat.neg_zero else PrimFloat.zero
  | Npos p =>
      FloatOps.SF2Prim
        match e with
        | Zneg k =>
            SpecFloat.SFdiv FloatOps.prec FloatOps.emax
              (SpecFloat.S754_finite neg p 0)
              (SpecFloat.S754_finite false (Pos.pow 10 k) 0)
        | _ =>
            SpecFloat.binary_normalize FloatOps.prec FloatOps.emax
              ((if neg then Zneg p else Zpos p) * 10 ^ e)%Z 0%Z false
        end
  end.

Definition parseFloat (s : string) : number :=
  let (neg, u) := read_sign (trim_start s) in
  if String.prefix "Infinity" u then
    (if neg then PrimFloat.neg_infinity else PrimFloat.infinity)
  else
    let '(ip, n1, r1) := read_digits u 0%N 0%nat in
    let '(m, n2, r2) :=
      match r1 with
      | String "."%char rest => read_digits rest ip 0%nat
      | _ => (ip, 0%nat, r1)
      end in
    match n1, n2 with
    | O, O => PrimFloat.nan
    | _, _ => decimal_to_number neg m (read_exponent r2 - Z.of_nat n2)
    end.

End JS.

(* ================================================================= *)
(** ** Photo navigation ([handleNext], [handlePrevious] of App.tsx)   *)
(* ================================================================= *)

Module Nav.
Local Open Scope Z_scope.

(** [images.length] as the integer the handler reads. *)
Definition length_of {A : Type} (images : list A) : Z :=
  Z.of_nat (List.length images).

(** [setSelectedImageIndex((prev) => Math.min(prev + 1, images.length - 1))] *)
Definition handleNext {A : Type} (images : list A) (prev : Z) : Z :=
  Z.min (prev + 1) (length_of images - 1).

(** [setSelectedImageIndex((prev) => Math.max(prev - 1, 0))] *)
Definition handlePrevious (prev : Z) : Z :=
  Z.max (prev - 1) 0.

Definition in_bounds {A : Type} (images : list A) (i : Z) : Prop :=
  0 <= i <= length_of images - 1.

End Nav.

(* ================================================================= *)
(** ** Marker sampling ([calculateSampleRate] of ImageViewer.tsx)     *)
(* ================================================================= *)

Module Sampling.
Local Open Scope Q_scope.

(** [zoom >= k] on a finite zoom level. *)
Definition geq (zoom : Q) (k : Q) : bool := Qle_bool k zoom.

(** The cascade of [if (zoom >= k) return r;] statements. *)
Definition calculateSampleRate (zoom : Q) : Z :=
  if geq zoom 18 then 1%Z
  else if geq zoom 17 then 6%Z
  else if geq zoom 16 then 12%Z
  else if geq zoom 15 then 18%Z
  else if geq zoom 14 then 24%Z
  else if geq zoom 13 then 30%Z
  else 40%Z.

End Sampling.

(* ================================================================= *)
(** ** Route length ([calculateDistance] and helpers of App.tsx)      *)
(* ================================================================= *)

Module Haversine.
Import Types.
Import PrimFloat.
Local Open Scope float_scope.

(** JavaScript numbers are binary64 floats; [+], [-], [*] and [/] round as
    IEEE 754 says, which is what [PrimFloat] computes. *)
Definition Image := ImageMetadata JS.number.

(** [Math.PI], the binary64 number nearest to pi
    (3.141592653589793). *)
Definition PI : float := 0x1.921fb54442d18p+1.

(** [return deg * (Math.PI / 180);] *)
Definition deg2rad (deg : float) : float := deg * (PI / 180).

(** [images[i]]: [None] stands for [undefined], whose field access throws. *)
Definition at_index (images : list Image) (i : nat) : option Image :=
  nth_error images i.

Section Builtins.

(** [Math.sin], [Math.cos] and [Math.atan2]. ECMAScript leaves their values
    to the implementation's approximation, so they are parameters of the
    helpers. [Math.sqrt] is the IEEE 754 square root, NaN below zero. *)
Variables sin cos : float -> float.
Variable atan2 : float -> float -> float.

(** The quantity [a] of [getDistanceFromLatLonInKm]; the products associate
    to the left, as JavaScript's [*] does. *)
Definition haversine_a (lat1 lon1 lat2 lon2 : float) : float :=
  let dLat := deg2rad (lat2 - lat1) in
  let dLon := deg2rad (lon2 - lon1) in
  sin (dLat / 2) * sin (dLat / 2) +
  cos (deg2rad lat1) * cos (deg2rad lat2) * sin (dLon / 2) * sin (dLon / 2).

(** [R_km] is the source's [R]. *)
Definition getDistanceFromLatLonInKm (lat1 lon1 lat2 lon2 : float) : float :=
  let R_km := 6371 in
  let a := haversine_a lat1 lon1 lat2 lon2 in
  let c := 2 * atan2 (sqrt a) (sqrt (1 - a)) in
  R_km * c.

(** The [for (let i = 0; i < images.length - 1; i++)] loop, entered at index
    [i] with the running [total]; [None] is the [TypeError] of reading a
    field of [undefined]. *)
Equations calculateDistance_loop (images : list Image) (i : nat) (total : float)
  : option float by wf (List.length images - i)%nat lt :=
calculateDistance_loop images i total
    with Z_lt_dec (Z.of_nat i) (Z.of_nat (List.length images) - 1) := {
  | right _ => Some total
  | left Hlt =>
      match at_index images i, at_index images (S i) with
      | Some p, Some q =>
          calculateDistance_loop images (S i)
            (total + getDistanceFromLatLonInKm
                       (latitude p) (longitude p) (latitude q) (longitude q))
      | _, _ => None
      end }.
Next Obligation. lia. Qed.

(** [let total = 0; for (...) { total += ... } return total;] *)
Definition calculateDistance (images : list Image) : option float :=
  calculateDistance_loop images 0 0.

(** *** The specification's wording *)

(** The haversine formula with Earth radius 6371 km over angles converted
    from degrees to radians, every operation rounded to binary64:
    [a = sin^2(dLat/2) + cos(lat1) * cos(lat2) * sin^2(dLon/2)] and
    [d = 2 * R * atan2(sqrt(a), sqrt(1 - a))]. The formula leaves the order
    of its products open, and rounding depends on it; they are taken here in
    the order of the program, [cos * cos * sin * sin] from the left and the
    radius times the doubled angle. *)
Definition radians (deg : float) : float := deg * (PI / 180).

Definition haversine_formula (lat1 lon1 lat2 lon2 : float) : float :=
  let half_dLat := radians (lat2 - lat1) / 2 in
  let half_dLon := radians (lon2 - lon1) / 2 in
  let a :=
    sin half_dLat * sin half_dLat +
    cos (radians lat1) * cos (radians lat2) * sin half_dLon * sin half_dLon in
  6371 * (2 * atan2 (sqrt a) (sqrt (1 - a))).

Definition haversine_between (p q : Image) : float :=
  haversine_formula (latitude p) (longitude p) (latitude q) (longitude q).

End Builtins.

(** The consecutive pairs [(i, i+1)] of a list, in order. *)
Definition consecutive_pairs (l : list Image) : list (Image * Image) :=
  combine l (tl l).

(** The sum of [d] over the pairs, accumulated from [0] in list order. *)
Definition sum_over (d : Image -> Image -> float) (pairs : list (Image * Image))
  : float :=
  fold_left (fun total pq => total + d (fst pq) (snd pq)) pairs 0.

(** [Math.atan2(y, x)] as ECMAScript words it: NaN when either argument is
    NaN, and otherwise the implementation's [approximation]. *)
Definition Math_atan2 (approximation : float -> float -> float) (y x : float)
  : float :=
  if is_nan y || is_nan x then nan else approximation y x.

Definition photo_at (lat lon : float) : Image :=
  mkImage lat lon None None None "a.jpg"%string "blob:a"%string
          None None None None None.

(** Two antipodal places: 14.7 N 10 E, and 14.7 S 170 W. *)
Definition north_lat : float := 0x1.d666666666666p+3.
Definition north_lon : float := 10.
Definition south_lat : float := -0x1.d666666666666p+3.
Definition south_lon : float := -170.

End Haversine.

(* ================================================================= *)
(** ** [Math.sin] and [Math.cos] as fdlibm computes them              *)
(* ================================================================= *)

(** The routines of fdlibm ([s_sin.c], [s_cos.c], [k_sin.c], [k_cos.c],
    [e_rem_pio2.c]), which V8 ports in [src/base/ieee754.cc] for [Math.sin]
    and [Math.cos]. This is their transcription for arguments below
    [3 pi / 4] in absolute value, where the argument reduction is a single
    subtraction of [pi / 2]; beyond that the reduction is not transcribed
    and the result is [None]. *)
Module Fdlibm.
Import PrimFloat.
Local Open Scope float_scope.

(** [k_sin.c] *)
Definition S1 : float := -0x1.5555555555549p-3.
Definition S2 : float := 0x1.111111110f8a6p-7.
Definition S3 : float := -0x1.a01a019c161d5p-13.
Definition S4 : float := 0x1.71de357b1fe7dp-19.
Definition S5 : float := -0x1.ae5e68a2b9cebp-26.
Definition S6 : float := 0x1.5d93a5acfd57cp-33.

(** [__kernel_sin(x, y, iy)]: [ix < 0x3e400000] is [|x| < 2^-27]. *)
Definition kernel_sin (x y : float) (iy : bool) : float :=
  if abs x <? 0x1p-27 then x
  else
    let z := x * x in
    let v := z * x in
    let r := S2 + z * (S3 + z * (S4 + z * (S5 + z * S6))) in
    if iy then x - ((z * (0.5 * y - v * r) - y) - v * S1)
    else x + v * (S1 + z * r).

(** [k_cos.c] *)
Definition C1 : float := 0x1.555555555554cp-5.
Definition C2 : float := -0x1.6c16c16c15177p-10.
Definition C3 : float := 0x1.a01a019cb1590p-16.
Definition C4 : float := -0x1.27e4f809c52adp-22.
Definition C5 : float := 0x1.1ee9ebdb4b1c4p-29.
Definition C6 : float := -0x1.8fae9be8838d4p-37.

(** The number whose high word is that of [ax] less [0x00200000] and whose
    low word is zero: [ax] with the low 32 bits of its mantissa cleared,
    divided by four. *)
Definition quarter_of_high_word (ax : float) : float :=
  match FloatOps.Prim2SF ax with
  | SpecFloat.S754_finite _ m e =>
      FloatOps.SF2Prim (SpecFloat.S754_finite false
                 (Z.to_pos (Z.shiftl (Z.shiftr (Z.pos m) 32) 32)) (e - 2))
  | _ => nan
  end.

(** [__kernel_cos(x, y)]: [ix < 0x3FD33333] is [|x| < 0x1.33333p-2] and
    [ix > 0x3fe90000] is [|x| >= 0x1.90001p-1]. *)
Definition kernel_cos (x y : float) : float :=
  if abs x <? 0x1p-27 then 1
  else
    let z := x * x in
    let r := z * (C1 + z * (C2 + z * (C3 + z * (C4 + z * (C5 + z * C6))))) in
    if abs x <? 0x1.33333p-2 then 1 - (0.5 * z - (z * r - x * y))
    else
      let qx := if 0x1.90001p-1 <=? abs x then 0.28125
                else quarter_of_high_word (abs x) in
      let hz := 0.5 * z - qx in
      let a := 1 - qx in
      a - (hz - (z * r - x * y)).

(** [e_rem_pio2.c] *)
Definition pio2_1 : float := 0x1.921fb544p+0.
Definition pio2_1t : float := 0x1.0b4611a626331p-34.
Definition pio2_2 : float := 0x1.0b4611a6p-34.
Definition pio2_2t : float := 0x1.3198a2e037073p-69.

(** [__ieee754_rem_pio2(x, y)] for [pi/4 < |x| < 3 pi / 4]
    ([ix < 0x4002d97c]): the quadrant [n] and the two halves of the
    remainder; [ix != 0x3ff921fb] tells whether 33 + 53 bits of [pi / 2]
    are enough. *)
Definition rem_pio2_small (x : float) : Z * float * float :=
  let near_pio2 := (0x1.921fbp+0 <=? abs x) && (abs x <? 0x1.921fcp+0) in
  if 0 <? x then
    let z := x - pio2_1 in
    if negb near_pio2 then
      let y0 := z - pio2_1t in
      (1%Z, y0, (z - y0) - pio2_1t)
    else
      let z := z - pio2_2 in
      let y0 := z - pio2_2t in
      (1%Z, y0, (z - y0) - pio2_2t)
  else
    let z := x + pio2_1 in
    if negb near_pio2 then
      let y0 := z + pio2_1t in
      ((-1)%Z, y0, (z - y0) + pio2_1t)
    else
      let z := z + pio2_2 in
      let y0 := z + pio2_2t in
      ((-1)%Z, y0, (z - y0) + pio2_2t).

(** [ix <= 0x3fe921fb], that is [|x| < 0x1.921fcp-1] (about [pi / 4]). *)
Definition below_pio4 (x : float) : bool := abs x <? 0x1.921fcp-1.

(** [ix < 0x4002d97c], that is [|x| < 0x1.2d97cp+1] (about [3 pi / 4]). *)
Definition below_3pio4 (x : float) : bool := abs x <? 0x1.2d97cp+1.

(** [sin(x)] of [s_sin.c]; [n & 3] is 1 for [n = 1] and 3 for [n = -1]. *)
Definition sin (x : float) : option float :=
  if below_pio4 x then Some (kernel_sin x 0 false)
  else if below_3pio4 x then
    let '(n, y0, y1) := rem_pio2_small x in
    if (n =? 1)%Z then Some (kernel_cos y0 y1)
    else Some (- kernel_cos y0 y1)
  else None.

(** [cos(x)] of [s_cos.c]. *)
Definition cos (x : float) : option float :=
  if below_pio4 x then Some (kernel_cos x 0)
  else if below_3pio4 x then
    let '(n, y0, y1) := rem_pio2_small x in
    if (n =? 1)%Z then Some (- kernel_sin y0 y1 true)
    else Some (kernel_sin y0 y1 true)
  else None.

(** A [Math.sin] or [Math.cos] that returns what the routine returns,
    wherever it is transcribed. *)
Definition computes (math : float -> float) (routine : float -> option float)
  : Prop :=
  forall x v, routine x = Some v -> math x = v.

(** Totalised with NaN where the reduction is not transcribed. *)
Definition or_nan (routine : float -> option float) (x : float) : float :=
  match routine x with
  | Some v => v
  | None => nan
  end.

End Fdlibm.

(* ================================================================= *)
(** ** The DOM that [DOMParser] returns                               *)
(* ================================================================= *)

Module DOM.

#[warnings="-register-all"]
Inductive node : Type :=
| Element (tagName : string) (attributes : list (string * string))
          (childNodes : list node)
| Text (data : string).

(** A document, by its child nodes. *)
Definition Document := list node.

Definition name_matches (name tag : string) : bool :=
  (String.eqb name "*" || String.eqb name tag)%bool.

(** The elements named [name] in the subtree of [n], [n] included, in
    document order. *)
Fixpoint elements_named (name : string) (n : node) : list node :=
  match n with
  | Element tag _ children =>
      (if name_matches name tag then [n] else []) ++
      flat_map (elements_named name) children
  | Text _ => []
  end.

(** [document.getElementsByTagName(name)] *)
Definition getElementsByTagName (doc : Document) (name : string) : list node :=
  flat_map (elements_named name) doc.

(** [element.getElementsByTagName(name)]: descendants only. *)
Definition element_getElementsByTagName (e : node) (name : string) : list node :=
  match e with
  | Element _ _ children => flat_map (elements_named name) children
  | Text _ => []
  end.

(** [element.getAttribute(key)]: [None] is [null]. *)
Definition getAttribute (e : node) (key : string) : option string :=
  match e with
  | Element _ attrs _ =>
      option_map snd (find (fun kv => String.eqb (fst kv) key) attrs)
  | Text _ => None
  end.

(** [node.textContent] *)
Fixpoint textContent (n : node) : string :=
  match n with
  | Element _ _ children =>
      fold_right (fun c acc => String.append (textContent c) acc)
                 EmptyString children
  | Text data => data
  end.

End DOM.

(* ================================================================= *)
(** ** Files and their metadata                                       *)
(* ================================================================= *)

Module Files.
Import Types JS.

(** The fields of the object [exifr.parse(file, true)] resolves to that
    the handlers read; an absent field is [None]. *)
Record Exif : Type := mkExif {
  exif_latitude : option number;
  exif_longitude : option number;
  DateTimeOriginal : option Date;
  CreateDate : option Date;
  Make : option string;
  Model : option string;
  GPSAltitude : option number;
  ExposureTime : option number;
  FNumber : option number;
  ISO : option number;
  FocalLength : option number
}.

(** A [File], with what the platform calls made on it return:
    [exifr.parse(file, true)] ([Returned None] is [undefined]),
    [URL.createObjectURL(file)] and [file.text()]. *)
Record File : Type := mkFile {
  name : string;
  exifr_parse : outcome (option Exif);
  createObjectURL : string;
  text : outcome string
}.

End Files.

(* ================================================================= *)
(** ** Image upload ([handleImageUpload] of App.tsx)                  *)
(* ================================================================= *)

Module Upload.
Import Types JS Files.

Definition Image := ImageMetadata number.

(** The state of the map tab. *)
Record MapState : Type := mkMapState {
  images : list Image;
  selectedImageIndex : Z;
  loading : bool;
  error : option string
}.

Definition setImages (v : list Image) (st : MapState) : MapState :=
  mkMapState v (selectedImageIndex st) (loading st) (error st).
Definition setSelectedImageIndex (v : Z) (st : MapState) : MapState :=
  mkMapState (images st) v (loading st) (error st).
Definition setLoading (v : bool) (st : MapState) : MapState :=
  mkMapState (images st) (selectedImageIndex st) v (error st).
Definition setError (v : option string) (st : MapState) : MapState :=
  mkMapState (images st) (selectedImageIndex st) (loading st) v.

(** The entry pushed for [file] when
    [metadata?.latitude && metadata?.longitude] is truthy. *)
Definition gps_entry (file : File) (metadata : option Exif) : option Image :=
  match metadata with
  | Some md =>
      match exif_latitude md, exif_longitude md with
      | Some lat, Some lon =>
          if (truthy lat && truthy lon)%bool then
            Some {| latitude := lat;
                    longitude := lon;
                    timestamp := or_else (DateTimeOriginal md) (CreateDate md);
                    make := Make md;
                    model := Model md;
                    fileName := name file;
                    url := createObjectURL file;
                    altitude := GPSAltitude md;
                    exposureTime := ExposureTime md;
                    fNumber := FNumber md;
                    iso := ISO md;
                    focalLength := FocalLength md |}
          else None
      | _, _ => None
      end
  | None => None
  end.

(** The [for (const file of files)] loop. *)
Fixpoint collect (files : list File) (newImages : list Image)
  : outcome (list Image) :=
  match files with
  | [] => Returned newImages
  | file :: rest =>
      bind (exifr_parse file) (fun metadata =>
        collect rest
          match gps_entry file metadata with
          | Some entry => newImages ++ [entry]
          | None => newImages
          end)
  end.

Definition no_gps_message : string :=
  "No GPS data found in the uploaded images. Please ensure your images contain GPS information.".

Definition processing_error_message : string :=
  "Error processing images. Please try again.".

(** [files] is [event.target.files]; [None] is [null]. *)
Definition handleImageUpload (files : option (list File)) (st : MapState)
  : MapState :=
  match files with
  | None => st
  | Some files =>
      let st := setError None (setLoading true st) in
      let st :=
        match collect files [] with
        | Returned newImages =>
            if Nat.eqb (List.length newImages) 0
            then setError (Some no_gps_message) st
            else setSelectedImageIndex 0 (setImages newImages st)
        | Threw _ => setError (Some processing_error_message) st
        end in
      setLoading false st
  end.

(** *** Vocabulary of the specification *)

(** The extracted metadata of [file] contains a GPS latitude and a GPS
    longitude. *)
Definition geotagged (file : File) : bool :=
  match exifr_parse file with
  | Returned (Some md) =>
      match exif_latitude md, exif_longitude md with
      | Some _, Some _ => true
      | _, _ => false
      end
  | _ => false
  end.

(** The entry of a geotagged file: its latitude and longitude with the
    other fields copied. *)
Definition entry_of (file : File) : option Image :=
  match exifr_parse file with
  | Returned (Some md) =>
      match exif_latitude md, exif_longitude md with
      | Some lat, Some lon =>
          Some {| latitude := lat;
                  longitude := lon;
                  timestamp := or_else (DateTimeOriginal md) (CreateDate md);
                  make := Make md;
                  model := Model md;
                  fileName := name file;
                  url := createObjectURL file;
                  altitude := GPSAltitude md;
                  exposureTime := ExposureTime md;
                  fNumber := FNumber md;
                  iso := ISO md;
                  focalLength := FocalLength md |}
      | _, _ => None
      end
  | _ => None
  end.

(** The geotagged entries of [files], in file order. *)
Fixpoint geotagged_entries (files : list File) : list Image :=
  match files with
  | [] => []
  | file :: rest =>
      match entry_of file with
      | Some entry => entry :: geotagged_entries rest
      | None => geotagged_entries rest
      end
  end.

(** The extraction of [file] failed. *)
Definition extraction_fails (file : File) : bool :=
  match exifr_parse file with
  | Threw _ => true
  | Returned _ => false
  end.

(** No coordinate that [file] carries is [0], [-0] or [NaN]. *)
Definition coordinates_nonzero (file : File) : bool :=
  match exifr_parse file with
  | Returned (Some md) =>
      (match exif_latitude md with Some lat => truthy lat | None => true end &&
       match exif_longitude md with Some lon => truthy lon | None => true end)%bool
  | _ => true
  end.

(** The claim about upload outcomes, as the specification words it. *)
Definition upload_claim (files : list File) (st : MapState) : Prop :=
  let st' := handleImageUpload (Some files) st in
  (forallb (fun f => negb (geotagged f)) files = true ->
     images st' = images st /\
     selectedImageIndex st' = selectedImageIndex st /\
     error st' <> None) /\
  (existsb geotagged files = true ->
     images st' = geotagged_entries files /\
     selectedImageIndex st' = 0%Z).

(** *** Sample inputs *)

Definition exif_at (lat lon : number) : Exif :=
  mkExif (Some lat) (Some lon) None None None None None None None None None.

Definition photo (file_name : string) (lat lon : number) : File :=
  mkFile file_name (Returned (Some (exif_at lat lon)))
         (String.append "blob:" file_name) (Threw "not a text file").

Definition unreadable_photo (file_name : string) : File :=
  mkFile file_name (Threw "Unknown file format")
         (String.append "blob:" file_name) (Threw "not a text file").

Definition initial_state : MapState := mkMapState [] 0%Z false None.

End Upload.

(* ================================================================= *)
(** ** GPX ([generateGPX], [parseGPX] of utils/gpx.ts and
       [handleGpxUpload] of App.tsx)                                  *)
(* ================================================================= *)

Module Gpx.
Import Types JS DOM Files.
Import PrimFloat.

Definition Image := ImageMetadata number.

(** A [Point] of gpx-builder, with the fields [generateGPX] sets. *)
Record Point : Type := mkPoint {
  lat : number;
  lon : number;
  time : option Date;
  comment : option string
}.

Record Metadata : Type := mkMetadata {
  metadata_name : string;
  metadata_desc : string;
  metadata_time : Date
}.

(** What [gpxBuilder.toObject()] hands to [buildGPX]. *)
Record GPXData : Type := mkGPXData {
  metadata : option Metadata;
  segmentPoints : list Point
}.

(** [[img.make, img.model].filter(Boolean).join(' ')] under
    [if (img.make || img.model)]. *)
Definition nonempty (s : option string) : list string :=
  match s with
  | Some EmptyString => []
  | Some v => [v]
  | None => []
  end.

Definition device_comment (img : Image) : option string :=
  match nonempty (make img) ++ nonempty (model img) with
  | [] => None
  | parts => Some (String.concat " " parts)
  end.

Definition point_of (img : Image) : Point :=
  {| lat := latitude img;
     lon := longitude img;
     time := timestamp img;
     comment := device_comment img |}.

Definition length_text {A : Type} (l : list A) : string :=
  DecimalString.NilEmpty.string_of_uint (Nat.to_uint (List.length l)).

(** The builder object of [generateGPX], at the time [now]. *)
Definition gpx_data (now : Date) (images : list Image) : GPXData :=
  let points := map point_of images in
  let metadata :=
    {| metadata_name := "Photo Route";
       metadata_desc :=
         String.append "Route generated from "
           (String.append (length_text images) " photos");
       metadata_time := now |} in
  {| metadata := Some metadata; segmentPoints := points |}.

(** A point of the GPX viewer. *)
Record GPXPoint : Type := mkGPXPoint {
  gpx_lat : number;
  gpx_lon : number;
  gpx_name : option string;
  gpx_time : option string
}.

(** The state of the GPX viewer tab. *)
Record GpxState : Type := mkGpxState {
  gpxFile : option File;
  gpxPoints : list GPXPoint;
  gpxLoading : bool;
  gpxError : option string
}.

Definition setGpxFile (v : option File) (st : GpxState) : GpxState :=
  mkGpxState v (gpxPoints st) (gpxLoading st) (gpxError st).
Definition setGpxPoints (v : list GPXPoint) (st : GpxState) : GpxState :=
  mkGpxState (gpxFile st) v (gpxLoading st) (gpxError st).
Definition setGpxLoading (v : bool) (st : GpxState) : GpxState :=
  mkGpxState (gpxFile st) (gpxPoints st) v (gpxError st).
Definition setGpxError (v : option string) (st : GpxState) : GpxState :=
  mkGpxState (gpxFile st) (gpxPoints st) (gpxLoading st) v.

(** [parseFloat(point.getAttribute(key) || '0')] *)
Definition attribute_number (e : node) (key : string) : number :=
  parseFloat (string_or (getAttribute e key) "0").

(** [el ? el.textContent || undefined : undefined] for
    [el = trkpt.getElementsByTagName(tag)[0]]. *)
Definition child_text (trkpt : node) (tag : string) : option string :=
  match element_getElementsByTagName trkpt tag with
  | el :: _ =>
      match textContent el with
      | EmptyString => None
      | t => Some t
      end
  | [] => None
  end.

Definition read_failure : string := "TypeError: cannot read properties of undefined".

Section Platform.

(** [buildGPX] of gpx-builder and [DOMParser.parseFromString(text, mime)]. *)
Variable buildGPX : GPXData -> string.
Variable parseFromString : string -> string -> Document.
(** [new Date()] *)
Variable now : Date.

Definition generateGPX (images : list Image) : string :=
  buildGPX (gpx_data now images).

(** The body of the [for] loop of [parseGPX]. *)
Definition parseGPX_body (trackPoints : list node) (i : nat)
    (coordinates : list (number * number)) : outcome (list (number * number)) :=
  match nth_error trackPoints i with
  | Some point =>
      let lat := attribute_number point "lat" in
      let lon := attribute_number point "lon" in
      Returned (coordinates ++ [(lat, lon)])
  | None => Threw read_failure
  end.

Definition parseGPX (gpxString : string) : outcome (list (number * number)) :=
  let gpxDoc := parseFromString gpxString "text/xml" in
  let trackPoints := getElementsByTagName gpxDoc "trkpt" in
  for_range (List.length trackPoints) 0 (parseGPX_body trackPoints) [].

(** The body of the [for] loop of [handleGpxUpload]. *)
Definition upload_body (trkpts : list node) (i : nat) (points : list GPXPoint)
  : outcome (list GPXPoint) :=
  match nth_error trkpts i with
  | Some trkpt =>
      let lat := attribute_number trkpt "lat" in
      let lon := attribute_number trkpt "lon" in
      let name := child_text trkpt "name" in
      let time := child_text trkpt "time" in
      Returned (points ++ [mkGPXPoint lat lon name time])
  | None => Threw read_failure
  end.

(** The [try] block of [handleGpxUpload]. *)
Definition read_track (file : File) : outcome (list GPXPoint) :=
  bind (text file) (fun text =>
    let xml := parseFromString text "application/xml" in
    let parserError := getElementsByTagName xml "parsererror" in
    if Nat.ltb 0 (List.length parserError) then
      Threw "Error parsing GPX file."
    else
      let trkpts := getElementsByTagName xml "trkpt" in
      bind (for_range (List.length trkpts) 0 (upload_body trkpts) [])
        (fun points =>
           if Nat.eqb (List.length points) 0 then
             Threw "No track points found in GPX file."
           else Returned points)).

Definition invalid_gpx_message : string :=
  "Error parsing GPX file. Please ensure it is a valid GPX format.".

(** [files] is [event.target.files]; [None] is [null]. *)
Definition handleGpxUpload (files : option (list File)) (st : GpxState)
  : GpxState :=
  match files with
  | None => st
  | Some [] => st
  | Some (file :: _) =>
      let st := setGpxFile (Some file) st in
      let st := setGpxLoading true st in
      let st := setGpxError None st in
      let st := setGpxPoints [] st in
      let st :=
        match read_track file with
        | Returned points => setGpxPoints points st
        | Threw message =>
            setGpxError (Some (string_or (Some message) invalid_gpx_message)) st
        end in
      setGpxLoading false st
  end.

(** *** Vocabulary of the specification *)

(** The coordinate pairs of the images, in order. *)
Definition coordinates_of (images : list Image) : list (number * number) :=
  map (fun img => (latitude img, longitude img)) images.

(** The attribute text [s] reads back as the number [x]. *)
Definition renders (x : number) (s : string) : Prop :=
  s <> EmptyString /\ parseFloat s = x.

(** The element [e] carries the coordinates of [p] in its [lat] and [lon]
    attributes. *)
Definition writes_point (p : Point) (e : node) : Prop :=
  exists slat slon,
    getAttribute e "lat" = Some slat /\ getAttribute e "lon" = Some slon /\
    renders (lat p) slat /\ renders (lon p) slon.

(** The value of attribute [key] as the specification words it: the parsed
    attribute, and 0 when it is missing. *)
Definition claimed_coordinate (e : node) (key : string) : number :=
  match getAttribute e key with
  | Some s => parseFloat s
  | None => PrimFloat.zero
  end.

(** The claim about [parseGPX], as the specification words it. *)
Definition parseGPX_claim (gpxString : string) : Prop :=
  parseGPX gpxString =
  Returned
    (map (fun e => (claimed_coordinate e "lat", claimed_coordinate e "lon"))
         (getElementsByTagName (parseFromString gpxString "text/xml") "trkpt")).

(** The same with an empty attribute counted as missing. *)
Definition coordinate (e : node) (key : string) : number :=
  match getAttribute e key with
  | Some EmptyString => PrimFloat.zero
  | Some s => parseFloat s
  | None => PrimFloat.zero
  end.

(** The file reads as text that parses with no [parsererror] element and
    at least one [trkpt] element. *)
Definition has_track (file : File) : Prop :=
  exists text,
    Files.text file = Returned text /\
    getElementsByTagName (parseFromString text "application/xml") "parsererror" = [] /\
    getElementsByTagName (parseFromString text "application/xml") "trkpt" <> [].

End Platform.

(** *** Sample inputs *)

Definition trkpt_with (slat slon : string) : node :=
  Element "trkpt" [("lat"%string, slat); ("lon"%string, slon)] [].

(** [<gpx><trkpt lat='' lon='5'/></gpx>] *)
Definition empty_lat_text : string := "<gpx><trkpt lat='' lon='5'/></gpx>".
Definition empty_lat_document : Document :=
  [Element "gpx" [] [trkpt_with "" "5"]].

(** A route of two photos, the text gpx-builder writes for it and the
    document the XML parser reads from that text. *)
Definition sample_photo (file_name : string) (lat lon : number) : Image :=
  mkImage lat lon None None None file_name (String.append "blob:" file_name)
          None None None None None.

Definition sample_route : list Image :=
  [sample_photo "a.jpg" 48.5%float 2.25%float;
   sample_photo "b.jpg" 51.5%float (-0.125)%float].

Definition sample_text : string :=
  "<?xml version='1.0' encoding='UTF-8'?><gpx version='1.1'><metadata><name>Photo Route</name><desc>Route generated from 2 photos</desc><time>2024-01-01T00:00:00.000Z</time></metadata><trk><trkseg><trkpt lat='48.5' lon='2.25'/><trkpt lat='51.5' lon='-0.125'/></trkseg></trk></gpx>".

Definition sample_document : Document :=
  [Element "gpx" [("version"%string, "1.1"%string)]
     [Element "metadata" []
        [Element "name" [] [Text "Photo Route"];
         Element "desc" [] [Text "Route generated from 2 photos"];
         Element "time" [] [Text "2024-01-01T00:00:00.000Z"]];
      Element "trk" []
        [Element "trkseg" []
           [trkpt_with "48.5" "2.25"; trkpt_with "51.5" "-0.125"]]]].

Definition sample_parseFromString (text mime : string) : Document :=
  if String.eqb text sample_text then sample_document else [].

Definition sample_gpx_file : File :=
  mkFile "route.gpx" (Threw "Unknown file format") "blob:route.gpx"
         (Returned sample_text).

End Gpx.

(* ================================================================= *)
(** ** Adding images and the events of the map tab (App.tsx)          *)
(* ================================================================= *)

Module MapTab.
Import Types JS Files Upload.
Import PrimFloat.

(** [names.includes(x)] on strings. *)
Definition includes (names : list string) (x : string) : bool :=
  existsb (String.eqb x) names.

Definition no_new_images_message : string :=
  "No new images added. All images already exist or contain no GPS data.".

(** [handleAddImages]; [images] in the body is the list of the state the
    handler was created in. [files] is [event.target.files]. *)
Definition handleAddImages (files : option (list File)) (st : MapState)
  : MapState :=
  match files with
  | None => st
  | Some files =>
      let images := images st in
      let st := setError None (setLoading true st) in
      let st :=
        match collect files [] with
        | Returned newImages =>
            let existingFilenames := map fileName images in
            let filteredNewImages :=
              filter (fun newImg =>
                        negb (includes existingFilenames (fileName newImg)))
                     newImages in
            if Nat.eqb (List.length filteredNewImages) 0
            then setError (Some no_new_images_message) st
            else setSelectedImageIndex (Z.of_nat (List.length images))
                   (setImages (images ++ filteredNewImages) st)
        | Threw _ => setError (Some processing_error_message) st
        end in
      setLoading false st
  end.

(** The images the loop of the upload handlers collects from a batch; none
    when an extraction throws. *)
Definition batch (files : list File) : list Image :=
  match collect files [] with
  | Returned newImages => newImages
  | Threw _ => []
  end.

(** The images a batch adds to the list of [st]: the accepted entries whose
    file name the list does not have yet. *)
Definition added_by (files : list File) (st : MapState) : list Image :=
  match collect files [] with
  | Returned newImages =>
      filter (fun newImg =>
                negb (includes (map fileName (images st)) (fileName newImg)))
             newImages
  | Threw _ => []
  end.

(** What the user can do on the map tab: pick files with either button,
    press next or previous in the viewer, click a marker. *)
Inductive event : Type :=
| UploadImages (files : option (list File))
| AddImages (files : option (list File))
| Next
| Previous
| Select (index : Z).

Definition react (ev : event) (st : MapState) : MapState :=
  match ev with
  | UploadImages files => handleImageUpload files st
  | AddImages files => handleAddImages files st
  | Next =>
      setSelectedImageIndex
        (Nav.handleNext (images st) (selectedImageIndex st)) st
  | Previous =>
      setSelectedImageIndex (Nav.handlePrevious (selectedImageIndex st)) st
  | Select index => setSelectedImageIndex index st
  end.

(** The map and the viewer are rendered under [images.length > 0 &&], and
    a marker stands for an index of [images]. *)
Definition enabled (ev : event) (st : MapState) : Prop :=
  match ev with
  | UploadImages _ => True
  | AddImages _ => True
  | Next => images st <> []
  | Previous => images st <> []
  | Select index => (0 <= index < Z.of_nat (List.length (images st)))%Z
  end.

(** The states of the tab: the initial [useState] values, then one handler
    run after another. *)
Inductive reachable : MapState -> Prop :=
| reachable_initial : reachable initial_state
| reachable_step (st : MapState) (ev : event) :
    reachable st -> enabled ev st -> reachable (react ev st).

(** The selection points at an image, or is 0 while there is none. *)
Definition selection_ok (st : MapState) : Prop :=
  (0 <= selectedImageIndex st)%Z /\
  ((selectedImageIndex st < Z.of_nat (List.length (images st)))%Z \/
   (selectedImageIndex st = 0%Z /\ images st = [])).

(** The entry the loop of both upload handlers pushes for [file], if any:
    the extraction returns and the presence test passes. *)
Definition accepted_entry (file : File) : option Image :=
  match exifr_parse file with
  | Returned metadata => gps_entry file metadata
  | Threw _ => None
  end.

Fixpoint accepted_entries (files : list File) : list Image :=
  match files with
  | [] => []
  | file :: rest =>
      match accepted_entry file with
      | Some entry => entry :: accepted_entries rest
      | None => accepted_entries rest
      end
  end.

(** A sample batch. *)
Definition two_photos : list File :=
  [photo "a.jpg" 48.5%float 2.25%float; photo "b.jpg" 51.5%float 2.25%float].

(** Both coordinates of [img] are numbers other than 0 and NaN. *)
Definition plottable (img : Image) : bool :=
  (truthy (latitude img) && truthy (longitude img))%bool.

End MapTab.

(* ================================================================= *)
(** ** Markers of the sampled map ([Map] of ImageViewer.tsx)          *)
(* ================================================================= *)

Module Markers.
Import Types JS Sampling.
Local Open Scope Z_scope.

Definition Image := ImageMetadata number.
Definition LatLng : Type := number * number.

Inductive icon : Type :=
| waypointIcon
| startIcon
| endIcon
| selectedWaypointIcon
| selectedStartIcon
| selectedEndIcon.

(** [list.filter(p)] for a predicate that may throw. *)
Fixpoint filter_try {A : Type} (p : A -> outcome bool) (l : list A)
  : outcome (list A) :=
  match l with
  | [] => Returned []
  | x :: rest =>
      bind (p x) (fun keep =>
        bind (filter_try p rest) (fun kept =>
          Returned (if keep then x :: kept else kept)))
  end.

Section Viewport.

(** Leaflet's [LatLngBounds] and its [contains]. *)
Variable Bounds : Type.
Variable contains : Bounds -> LatLng -> bool.

Definition coordinates (images : list Image) : list LatLng :=
  map (fun img => (latitude img, longitude img)) images.

(** [images.map((_, idx) => idx)] *)
Definition waypointIndices (images : list Image) : list Z :=
  map Z.of_nat (seq 0 (List.length images)).

(** [idx % sampleRate === 0] and the three indices that are always kept. *)
Definition sampledWaypointIndices (images : list Image) (selectedIndex : Z)
    (zoomLevel : Q) : list Z :=
  let sampleRate := calculateSampleRate zoomLevel in
  filter (fun idx =>
            (Z.eqb idx 0 ||
             Z.eqb idx (Z.of_nat (List.length images) - 1) ||
             Z.eqb (Z.rem idx sampleRate) 0 ||
             Z.eqb idx selectedIndex)%bool)
         (waypointIndices images).

(** The callback of the second [filter]; [bounds] is [None] while the map
    has not reported its bounds. *)
Definition in_viewport (images : list Image) (selectedIndex : Z)
    (bounds : option Bounds) (imageIdx : Z) : outcome bool :=
  if (Z.eqb imageIdx 0 ||
      Z.eqb imageIdx (Z.of_nat (List.length images) - 1))%bool
  then Returned true
  else if Z.eqb imageIdx selectedIndex then Returned true
  else
    let coord := nth_error (coordinates images) (Z.to_nat imageIdx) in
    match bounds with
    | None => Returned true
    | Some b =>
        match coord with
        | Some c => Returned (contains b c)
        | None => Threw "TypeError: cannot read properties of undefined"
        end
    end.

(** The viewport test on an index that has coordinates: the first, the
    last and the selected marker always pass, the others when the bounds
    are unset or contain them. *)
Definition visible (images : list Image) (selectedIndex : Z)
    (bounds : option Bounds) (imageIdx : Z) : bool :=
  (Z.eqb imageIdx 0 || Z.eqb imageIdx (Z.of_nat (List.length images) - 1) ||
   Z.eqb imageIdx selectedIndex ||
   match bounds, nth_error (coordinates images) (Z.to_nat imageIdx) with
   | None, _ => true
   | Some b, Some c => contains b c
   | Some _, None => false
   end)%bool.

(** The sampled indices that pass the viewport test. *)
Definition rendered (images : list Image) (selectedIndex : Z)
    (zoomLevel : Q) (bounds : option Bounds) : list Z :=
  filter (visible images selectedIndex bounds)
         (sampledWaypointIndices images selectedIndex zoomLevel).

Definition markersToRender (images : list Image) (selectedIndex : Z)
    (zoomLevel : Q) (bounds : option Bounds) : outcome (list Z) :=
  filter_try (in_viewport images selectedIndex bounds)
             (sampledWaypointIndices images selectedIndex zoomLevel).

End Viewport.

(** A sample route and a viewport that contains nothing. *)
Definition sample_images : list Image :=
  map (fun k => mkImage (PrimFloat.of_uint63 (Uint63.of_Z (Z.of_nat k)))
                        PrimFloat.one None None None "p.jpg" "blob:p"
                        None None None None None)
      (seq 1 100).

Definition nothing_in_view (b : unit) (c : LatLng) : bool := false.

(** The icon chosen for the marker of [imageIdx]. *)
Definition marker_icon (images : list Image) (selectedIndex imageIdx : Z) : icon :=
  if Z.eqb imageIdx 0 then
    (if Z.eqb imageIdx selectedIndex then selectedStartIcon else startIcon)
  else if Z.eqb imageIdx (Z.of_nat (List.length images) - 1) then
    (if Z.eqb imageIdx selectedIndex then selectedEndIcon else endIcon)
  else if Z.eqb imageIdx selectedIndex then selectedWaypointIcon
  else waypointIcon.

Definition highlighted (i : icon) : bool :=
  match i with
  | selectedWaypointIcon | selectedStartIcon | selectedEndIcon => true
  | _ => false
  end.

End Markers.

(* ================================================================= *)
(** ** Markers of the plain map ([Map] of Map.tsx)                    *)
(* ================================================================= *)

Module SimpleMap.
Import Types JS Markers.
Local Open Scope Z_scope.

(** [list.slice(start, stop)], negative arguments counting from the end. *)
Definition slice {A : Type} (l : list A) (start stop : Z) : list A :=
  let len := Z.of_nat (List.length l) in
  let k := if Z.ltb start 0 then Z.max (len + start) 0 else Z.min start len in
  let final := if Z.ltb stop 0 then Z.max (len + stop) 0 else Z.min stop len in
  firstn (Z.to_nat (final - k)) (skipn (Z.to_nat k) l).

(** [list.map((x, idx) => f(x, idx))] for a callback that may throw, with
    [idx] counted from [i]. *)
Fixpoint map_indexed {A B : Type} (f : A -> Z -> outcome B) (i : Z)
    (l : list A) : outcome (list B) :=
  match l with
  | [] => Returned []
  | x :: rest =>
      bind (f x i) (fun y =>
        bind (map_indexed f (i + 1) rest) (fun ys => Returned (y :: ys)))
  end.

(** A [Marker]: where it stands, its icon, the image its popup reads and
    the index its click handler selects, if it has one. *)
Record marker : Type := mkMarker {
  position : LatLng;
  marker_icon : icon;
  popup_image : Image;
  on_click : option Z
}.

Definition undefined_read : string :=
  "TypeError: cannot read properties of undefined".

(** [<Marker position={coordinates[i]} ...>] whose popup reads [images[i]]. *)
Definition marker_at (images : list Image) (i : Z) (shown : icon)
  : outcome marker :=
  match nth_error (coordinates images) (Z.to_nat i),
        nth_error images (Z.to_nat i) with
  | Some coord, Some image => Returned (mkMarker coord shown image None)
  | _, _ => Threw undefined_read
  end.

(** The callback of [coordinates.slice(1, -1).map]. *)
Definition waypoint (images : list Image) (coord : LatLng) (idx : Z)
  : outcome marker :=
  let imageIdx := idx + 1 in
  match nth_error images (Z.to_nat imageIdx) with
  | Some image => Returned (mkMarker coord waypointIcon image (Some imageIdx))
  | None => Threw undefined_read
  end.

(** The markers of the [showPoints &&] block; none when the component
    returns its placeholder for an empty list. *)
Definition markers (images : list Image) : outcome (list marker) :=
  let coordinates := coordinates images in
  if Nat.eqb (List.length coordinates) 0 then Returned []
  else
    bind (marker_at images 0 startIcon) (fun start =>
    bind (map_indexed (waypoint images) 0 (slice coordinates 1 (-1)))
      (fun waypoints =>
    if Z.ltb 1 (Z.of_nat (List.length coordinates)) then
      bind (marker_at images (Z.of_nat (List.length coordinates) - 1) endIcon)
        (fun finish => Returned (start :: waypoints ++ [finish]))
    else Returned (start :: waypoints))).

(** *** One marker per image *)

(** The marker of the image at index [k] of [n]: the start and end icons at
    the ends, a clickable waypoint in between. *)
Definition marker_of (n : nat) (k : nat) (img : Image) : marker :=
  if Nat.eqb k 0 then
    mkMarker (latitude img, longitude img) startIcon img None
  else if Nat.eqb k (n - 1) then
    mkMarker (latitude img, longitude img) endIcon img None
  else
    mkMarker (latitude img, longitude img) waypointIcon img (Some (Z.of_nat k)).

Definition one_marker_per_image (images : list Image) : list marker :=
  map (fun entry => marker_of (List.length images) (fst entry) (snd entry))
      (combine (seq 0 (List.length images)) images).

End SimpleMap.

(* ================================================================= *)
(** ** GPX export ([downloadGPX] of App.tsx) and the viewer           *)
(* ================================================================= *)

Module GpxExport.
Import Types JS DOM Files Gpx Upload.

(** What [downloadGPX] does to the page, in order. *)
Inductive effect : Type :=
| CreateObjectURL (content mime url : string)
| AppendAnchor (href download : string)
| ClickAnchor (href download : string)
| RemoveAnchor (href download : string)
| RevokeObjectURL (url : string).

Definition no_coordinates_message : string :=
  "No coordinates available to generate GPX".

Definition generating_error_message : string :=
  "Error generating GPX. Please try again.".

(** The point of the viewer read from a [trkpt] element. *)
Definition point_of_trkpt (trkpt : node) : GPXPoint :=
  mkGPXPoint (attribute_number trkpt "lat") (attribute_number trkpt "lon")
             (child_text trkpt "name") (child_text trkpt "time").

Section Platform.

(** [buildGPX] of gpx-builder, which may throw, [URL.createObjectURL] of a
    blob with the given content, [DOMParser.parseFromString] and
    [new Date()]. *)
Variable buildGPX : GPXData -> outcome string.
Variable createObjectURL : string -> string.
Variable parseFromString : string -> string -> Document.
Variable now : Date.

(** [generateGPX(images)] inside the [try] of [downloadGPX]. *)
Definition generateGPX (images : list Gpx.Image) : outcome string :=
  buildGPX (gpx_data now images).

(** [downloadGPX], on the [images] of the state: the state it leaves and
    what it does to the page. *)
Definition downloadGPX (st : MapState) : MapState * list effect :=
  if Nat.eqb (List.length (images st)) 0 then
    (setError (Some no_coordinates_message) st, [])
  else
    match generateGPX (images st) with
    | Returned gpxData =>
        let url := createObjectURL gpxData in
        (st,
         [CreateObjectURL gpxData "application/gpx+xml" url;
          AppendAnchor url "photo-route.gpx";
          ClickAnchor url "photo-route.gpx";
          RemoveAnchor url "photo-route.gpx";
          RevokeObjectURL url])
    | Threw _ => (setError (Some generating_error_message) st, [])
    end.

(** The text [content], parsed with [mime], has the segment points of
    [data] as its [trkpt] elements, one each, in order. *)
Definition track_read_back (mime content : string) (data : GPXData) : Prop :=
  Forall2 writes_point (segmentPoints data)
    (getElementsByTagName (parseFromString content mime) "trkpt").

End Platform.

End GpxExport.

(* ================================================================= *)
(** ** Metadata viewer ([handleMetadataUpload] of App.tsx)            *)
(* ================================================================= *)

Module MetadataTab.
Import Types JS Files.

(** The state of the metadata tab. *)
Record MetadataState : Type := mkMetadataState {
  metadataImage : option File;
  metadata : option Exif;
  metadataLoading : bool;
  metadataError : option string
}.

Definition setMetadataImage (v : option File) (st : MetadataState) :=
  mkMetadataState v (metadata st) (metadataLoading st) (metadataError st).
Definition setMetadata (v : option Exif) (st : MetadataState) :=
  mkMetadataState (metadataImage st) v (metadataLoading st) (metadataError st).
Definition setMetadataLoading (v : bool) (st : MetadataState) :=
  mkMetadataState (metadataImage st) (metadata st) v (metadataError st).
Definition setMetadataError (v : option string) (st : MetadataState) :=
  mkMetadataState (metadataImage st) (metadata st) (metadataLoading st) v.

Definition no_metadata_message : string :=
  "No metadata found in the uploaded image.".

Definition extracting_error_message : string :=
  "Error extracting metadata. Please try again.".

(** [files] is [event.target.files]; [None] is [null]. *)
Definition handleMetadataUpload (files : option (list File))
    (st : MetadataState) : MetadataState :=
  match files with
  | None => st
  | Some [] => st
  | Some (file :: _) =>
      let st := setMetadataImage (Some file) st in
      let st := setMetadataLoading true st in
      let st := setMetadataError None st in
      let st := setMetadata None st in
      let st :=
        match exifr_parse file with
        | Returned extractedMetadata =>
            match extractedMetadata with
            | None => setMetadataError (Some no_metadata_message) st
            | Some m => setMetadata (Some m) st
            end
        | Threw _ => setMetadataError (Some extracting_error_message) st
        end in
      setMetadataLoading false st
  end.

End MetadataTab.

(* ================================================================= *)
(** ** Theorems: navigation                                            *)
(* ================================================================= *)

Module NavFacts.
Import Nav.
Local Open Scope Z_scope.

Lemma length_of_pos {A : Type} (images : list A) :
  images <> [] -> 1 <= length_of images.
Proof.
  unfold length_of. destruct images as [|x xs]; [congruence|].
  intros _. simpl List.length. lia.
Qed.

(** C8. For a non-empty image list and a selected index inside
    [0, images.length - 1], the index is still inside that range after
    [handleNext] and after [handlePrevious]; [handleNext] on the last index
    and [handlePrevious] on index 0 return the index unchanged. *)
Theorem navigation_keeps_index_in_bounds :
  forall (A : Type) (images : list A) (i : Z),
    images <> [] ->
    in_bounds images i ->
    in_bounds images (handleNext images i) /\
    in_bounds images (handlePrevious i) /\
    (i = length_of images - 1 -> handleNext images i = i) /\
    (i = 0 -> handlePrevious i = i).
Proof.
  intros A images i Hne [Hlo Hhi].
  pose proof (length_of_pos images Hne) as Hlen.
  unfold in_bounds, handleNext, handlePrevious.
  repeat split; intros; lia.
Qed.

Lemma navigation_keeps_index_in_bounds_witness :
  let images := [10%nat; 20%nat; 30%nat] in
  in_bounds images (handleNext images 2) /\
  in_bounds images (handlePrevious 2) /\
  (2 = length_of images - 1 -> handleNext images 2 = 2) /\
  (2 = 0 -> handlePrevious 2 = 2).
Proof.
  intro images.
  apply (navigation_keeps_index_in_bounds nat images 2).
  - discriminate.
  - unfold in_bounds, length_of; simpl; lia.
Defined.

End NavFacts.

(* ================================================================= *)
(** ** Theorems: marker sampling                                       *)
(* ================================================================= *)

Module SamplingFacts.
Import Sampling.
Local Open Scope Q_scope.

Lemma geq_true (zoom k : Q) : geq zoom k = true <-> k <= zoom.
Proof. unfold geq. apply Qle_bool_iff. Qed.

Lemma geq_false (zoom k : Q) : geq zoom k = false <-> zoom < k.
Proof.
  unfold geq. split.
  - intro H. apply Qnot_le_lt. intro Hle.
    apply Qle_bool_iff in Hle. congruence.
  - intro H. destruct (Qle_bool k zoom) eqn:E; [|reflexivity].
    apply Qle_bool_iff in E. exfalso. exact (Qlt_not_le _ _ H E).
Qed.

Ltac split_cascade :=
  unfold calculateSampleRate;
  repeat match goal with
  | |- context [geq ?z ?k] =>
      let E := fresh "E" in
      destruct (geq z k) eqn:E;
      [apply geq_true in E | apply geq_false in E]
  end.

Example rate_at_18 : calculateSampleRate 18 = 1%Z.
Proof. reflexivity. Qed.

Example rate_at_17_5 : calculateSampleRate (35 # 2) = 6%Z.
Proof. reflexivity. Qed.

Example rate_at_0 : calculateSampleRate 0 = 40%Z.
Proof. reflexivity. Qed.

(** C3. [calculateSampleRate] is the stated table on zoom levels, and it
    never grows when the zoom level grows. *)
Theorem calculateSampleRate_table_and_monotone :
  (forall zoom : Q,
     (18 <= zoom -> calculateSampleRate zoom = 1%Z) /\
     (17 <= zoom -> zoom < 18 -> calculateSampleRate zoom = 6%Z) /\
     (16 <= zoom -> zoom < 17 -> calculateSampleRate zoom = 12%Z) /\
     (15 <= zoom -> zoom < 16 -> calculateSampleRate zoom = 18%Z) /\
     (14 <= zoom -> zoom < 15 -> calculateSampleRate zoom = 24%Z) /\
     (13 <= zoom -> zoom < 14 -> calculateSampleRate zoom = 30%Z) /\
     (zoom < 13 -> calculateSampleRate zoom = 40%Z)) /\
  (forall z1 z2 : Q,
     z1 <= z2 -> (calculateSampleRate z2 <= calculateSampleRate z1)%Z).
Proof.
  split.
  - intro zoom.
    repeat split; intros; split_cascade;
      solve [ reflexivity | exfalso; lra ].
  - intros z1 z2 Hle.
    split_cascade; solve [ lia | exfalso; lra ].
Qed.

Lemma calculateSampleRate_table_and_monotone_witness :
  calculateSampleRate (33 # 2) = 12%Z /\
  (calculateSampleRate 17 <= calculateSampleRate (33 # 2))%Z.
Proof.
  destruct calculateSampleRate_table_and_monotone as [Htable Hmono].
  split.
  - destruct (Htable (33 # 2)) as (_ & _ & H16 & _).
    apply H16; [discriminate | reflexivity].
  - apply Hmono. discriminate.
Defined.

End SamplingFacts.

(* ================================================================= *)
(** ** Theorems: route length                                          *)
(* ================================================================= *)

Module HaversineFacts.
Import Types Haversine.
Import PrimFloat.
Local Open Scope float_scope.

(** *** The loop *)

Section Loop.

Variables sin cos : float -> float.
Variable atan2 : float -> float -> float.

Lemma loop_exit (images : list Image) (i : nat) (total : float) :
  (Z.of_nat (List.length images) - 1 <= Z.of_nat i)%Z ->
  calculateDistance_loop sin cos atan2 images i total = Some total.
Proof.
  intro H. rewrite calculateDistance_loop_equation_1.
  destruct (Z_lt_dec _ _) as [Hlt|Hge]; [lia|reflexivity].
Qed.

Lemma loop_step (images : list Image) (i : nat) (total : float) (p q : Image) :
  at_index images i = Some p ->
  at_index images (S i) = Some q ->
  calculateDistance_loop sin cos atan2 images i total =
  calculateDistance_loop sin cos atan2 images (S i)
    (total + getDistanceFromLatLonInKm sin cos atan2
               (latitude p) (longitude p) (latitude q) (longitude q)).
Proof.
  intros Hp Hq. rewrite calculateDistance_loop_equation_1.
  destruct (Z_lt_dec _ _) as [Hlt|Hge].
  - unfold calculateDistance_loop_unfold_clause_1. rewrite Hp, Hq. reflexivity.
  - assert (S i < List.length images)%nat
      by (apply nth_error_Some; unfold at_index in Hq; congruence).
    exfalso. lia.
Qed.

Lemma at_index_skipn (images : list Image) (i : nat) (p : Image) (rest : list Image) :
  skipn i images = p :: rest ->
  at_index images i = Some p /\ skipn (S i) images = rest.
Proof.
  revert i. induction images as [|x xs IH]; intros i H.
  - destruct i; discriminate.
  - destruct i as [|i].
    + simpl in H. injection H as -> ->. split; reflexivity.
    + simpl in H. apply IH in H. exact H.
Qed.

Lemma skipn_length_cons (images : list Image) (i : nat) (p : Image) (rest : list Image) :
  skipn i images = p :: rest ->
  List.length images = (i + S (List.length rest))%nat.
Proof.
  intro H. pose proof (length_skipn i images) as L.
  rewrite H in L. simpl in L.
  assert (i < List.length images)%nat.
  { destruct (Nat.lt_ge_cases i (List.length images)) as [Hlt|Hge]; [exact Hlt|].
    rewrite (skipn_all2 images Hge) in H. discriminate. }
  lia.
Qed.

(** The helper is the formula, operation for operation. *)
Lemma getDistance_is_formula (p q : Image) :
  getDistanceFromLatLonInKm sin cos atan2
    (latitude p) (longitude p) (latitude q) (longitude q) =
  haversine_between sin cos atan2 p q.
Proof. reflexivity. Qed.

(** The loop entered at [i] goes on adding to [total], pair after pair, the
    distances of the remaining suffix. *)
Lemma loop_from (images : list Image) :
  forall (suffix : list Image) (i : nat) (total : float),
    skipn i images = suffix ->
    calculateDistance_loop sin cos atan2 images i total =
    Some (fold_left
            (fun acc pq => acc + haversine_between sin cos atan2 (fst pq) (snd pq))
            (consecutive_pairs suffix) total).
Proof.
  induction suffix as [|p rest IH]; intros i total Hs.
  - rewrite loop_exit; [reflexivity|].
    pose proof (length_skipn i images) as L. rewrite Hs in L. simpl in L. lia.
  - pose proof (skipn_length_cons _ _ _ _ Hs) as Hlen.
    destruct (at_index_skipn _ _ _ _ Hs) as [Hp Hrest].
    destruct rest as [|q rest'].
    + rewrite loop_exit; [reflexivity | simpl in Hlen; lia].
    + destruct (at_index_skipn _ _ _ _ Hrest) as [Hq _].
      rewrite (loop_step _ _ _ _ _ Hp Hq).
      rewrite (IH (S i) _ Hrest).
      rewrite getDistance_is_formula. reflexivity.
Qed.

End Loop.

(** C2. For every list of images and whatever values [Math.sin], [Math.cos]
    and [Math.atan2] take, [calculateDistance] returns the sum, accumulated
    from 0 in list order, over the consecutive pairs [(i, i+1)] of the
    haversine formula with radius 6371 km applied to the two positions, all
    in binary64 arithmetic. *)
Theorem calculateDistance_is_sum_of_haversines :
  forall (sin cos : float -> float) (atan2 : float -> float -> float)
         (images : list Image),
    calculateDistance sin cos atan2 images =
    Some (sum_over (haversine_between sin cos atan2) (consecutive_pairs images)).
Proof.
  intros sin cos atan2 images. unfold calculateDistance, sum_over.
  apply loop_from. reflexivity.
Qed.

(** *** Antipodal photos *)

Section Antipodes.

Import Fdlibm.

Variables sin cos : float -> float.
Variable atan2 : float -> float -> float.

Hypothesis sin_computed : computes sin Fdlibm.sin.
Hypothesis cos_computed : computes cos Fdlibm.cos.

(** What the routines return at the arguments the helper passes them for the
    photos at 14.7 N 10 E and 14.7 S 170 W, in either order. *)
Lemma sin_half_dLat :
  sin (deg2rad (south_lat - north_lat) / 2) = -0x1.03d91f645e206p-2.
Proof. apply sin_computed. vm_compute. reflexivity. Qed.

Lemma sin_half_dLat_back :
  sin (deg2rad (north_lat - south_lat) / 2) = 0x1.03d91f645e206p-2.
Proof. apply sin_computed. vm_compute. reflexivity. Qed.

Lemma sin_half_dLon : sin (deg2rad (south_lon - north_lon) / 2) = -1.
Proof. apply sin_computed. vm_compute. reflexivity. Qed.

Lemma sin_half_dLon_back : sin (deg2rad (north_lon - south_lon) / 2) = 1.
Proof. apply sin_computed. vm_compute. reflexivity. Qed.

Lemma cos_north : cos (deg2rad north_lat) = 0x1.ef3db8094badp-1.
Proof. apply cos_computed. vm_compute. reflexivity. Qed.

Lemma cos_south : cos (deg2rad south_lat) = 0x1.ef3db8094badp-1.
Proof. apply cos_computed. vm_compute. reflexivity. Qed.

(** [a] comes out one unit in the last place above 1. *)
Lemma a_above_one :
  haversine_a sin cos north_lat north_lon south_lat south_lon
    = 0x1.0000000000001p+0 /\
  haversine_a sin cos south_lat south_lon north_lat north_lon
    = 0x1.0000000000001p+0.
Proof.
  unfold haversine_a. cbv zeta.
  rewrite sin_half_dLat, sin_half_dLat_back, sin_half_dLon, sin_half_dLon_back,
    cos_north, cos_south.
  split; vm_compute; reflexivity.
Qed.

End Antipodes.

(** C9. Two photos at antipodal places, 14.7 N 10 E and 14.7 S 170 W. With
    [Math.sin] and [Math.cos] computed by fdlibm's routines and a
    [Math.atan2] that returns NaN for a NaN argument, the quantity [a] is
    1.0000000000000002, [Math.sqrt(1 - a)] is NaN, and the distance between
    the photos is NaN in either order: it is not at least 0, the two orders
    do not compare equal, and [calculateDistance] of the two photos is
    NaN. *)
Theorem antipodal_photos_distance_is_NaN :
  forall (sin cos : float -> float) (atan2 : float -> float -> float),
    Fdlibm.computes sin Fdlibm.sin ->
    Fdlibm.computes cos Fdlibm.cos ->
    (forall y, atan2 y nan = nan) ->
    let north := photo_at north_lat north_lon in
    let south := photo_at south_lat south_lon in
    let d := getDistanceFromLatLonInKm sin cos atan2
               (latitude north) (longitude north)
               (latitude south) (longitude south) in
    let d_back := getDistanceFromLatLonInKm sin cos atan2
                    (latitude south) (longitude south)
                    (latitude north) (longitude north) in
    haversine_a sin cos (latitude north) (longitude north)
                        (latitude south) (longitude south)
      = 0x1.0000000000001p+0 /\
    sqrt (1 - 0x1.0000000000001p+0) = nan /\
    d = nan /\ d_back = nan /\
    (0 <=? d) = false /\ (d =? d_back) = false /\
    calculateDistance sin cos atan2 [north; south] = Some nan.
Proof.
  intros sin cos atan2 Hsin Hcos Hnan north south d d_back.
  destruct (a_above_one sin cos Hsin Hcos) as [Ha Hb].
  assert (Hd : d = nan).
  { unfold d, getDistanceFromLatLonInKm. cbv zeta.
    change (haversine_a sin cos (latitude north) (longitude north)
              (latitude south) (longitude south))
      with (haversine_a sin cos north_lat north_lon
              south_lat south_lon).
    rewrite Ha.
    replace (sqrt (1 - 0x1.0000000000001p+0)) with nan
      by (vm_compute; reflexivity).
    rewrite Hnan. vm_compute. reflexivity. }
  assert (Hd' : d_back = nan).
  { unfold d_back, getDistanceFromLatLonInKm. cbv zeta.
    change (haversine_a sin cos (latitude south) (longitude south)
              (latitude north) (longitude north))
      with (haversine_a sin cos south_lat south_lon
              north_lat north_lon).
    rewrite Hb.
    replace (sqrt (1 - 0x1.0000000000001p+0)) with nan
      by (vm_compute; reflexivity).
    rewrite Hnan. vm_compute. reflexivity. }
  split; [exact Ha|].
  split; [vm_compute; reflexivity|].
  split; [exact Hd|]. split; [exact Hd'|].
  split; [rewrite Hd; vm_compute; reflexivity|].
  split; [rewrite Hd, Hd'; vm_compute; reflexivity|].
  unfold calculateDistance.
  rewrite (loop_step sin cos atan2 [north; south] 0 0 north south eq_refl eq_refl).
  rewrite loop_exit by (simpl; lia).
  fold d. rewrite Hd. vm_compute. reflexivity.
Qed.

Lemma antipodal_photos_distance_is_NaN_witness :
  getDistanceFromLatLonInKm
    (Fdlibm.or_nan Fdlibm.sin) (Fdlibm.or_nan Fdlibm.cos)
    (Math_atan2 (fun _ _ => 0))
    north_lat north_lon south_lat south_lon
  = nan.
Proof.
  refine (proj1 (proj2 (proj2
    (antipodal_photos_distance_is_NaN
       (Fdlibm.or_nan Fdlibm.sin) (Fdlibm.or_nan Fdlibm.cos)
       (Math_atan2 (fun _ _ => 0)) _ _ _)))).
  - intros x v H. unfold Fdlibm.or_nan. rewrite H. reflexivity.
  - intros x v H. unfold Fdlibm.or_nan. rewrite H. reflexivity.
  - intro y. unfold Math_atan2. destruct (is_nan y); reflexivity.
Defined.

End HaversineFacts.

(* ================================================================= *)
(** ** Theorems: image upload                                          *)
(* ================================================================= *)

Module UploadFacts.
Import Types JS Files Upload.
Import PrimFloat.
Local Open Scope float_scope.

(** *** The collecting loop *)

Lemma gps_entry_nonzero (file : File) (metadata : option Exif) :
  exifr_parse file = Returned metadata ->
  coordinates_nonzero file = true ->
  gps_entry file metadata = entry_of file.
Proof.
  intros Hparse Hnz. unfold coordinates_nonzero, entry_of in *.
  rewrite Hparse in *. unfold gps_entry.
  destruct metadata as [md|]; [|reflexivity].
  destruct (exif_latitude md) as [lat|], (exif_longitude md) as [lon|];
    try reflexivity.
  rewrite Hnz. reflexivity.
Qed.

Lemma collect_throws (files : list File) :
  existsb extraction_fails files = true ->
  forall acc, exists message, collect files acc = Threw message.
Proof.
  induction files as [|file rest IH]; intros Hex acc.
  - discriminate.
  - simpl in Hex. unfold extraction_fails in Hex at 1. simpl.
    destruct (exifr_parse file) as [metadata|message] eqn:Hparse.
    + simpl in *. apply IH. exact Hex.
    + exists message. reflexivity.
Qed.

Lemma collect_returns (files : list File) :
  existsb extraction_fails files = false ->
  forallb coordinates_nonzero files = true ->
  forall acc, collect files acc = Returned (acc ++ geotagged_entries files).
Proof.
  induction files as [|file rest IH]; intros Hok Hnz acc.
  - simpl. rewrite app_nil_r. reflexivity.
  - simpl in Hok, Hnz.
    apply orb_false_iff in Hok as [Hfile Hrest].
    apply andb_true_iff in Hnz as [Hnzfile Hnzrest].
    unfold extraction_fails in Hfile. simpl.
    destruct (exifr_parse file) as [metadata|message] eqn:Hparse;
      [|discriminate].
    simpl. rewrite (gps_entry_nonzero file metadata Hparse Hnzfile).
    rewrite (IH Hrest Hnzrest).
    destruct (entry_of file) as [entry|]; [|reflexivity].
    rewrite <- app_assoc. reflexivity.
Qed.

Lemma entry_of_geotagged (file : File) :
  geotagged file = true <-> entry_of file <> None.
Proof.
  unfold geotagged, entry_of.
  destruct (exifr_parse file) as [[md|]|message];
    try (split; [discriminate | congruence]).
  destruct (exif_latitude md), (exif_longitude md);
    split; (discriminate || congruence).
Qed.

Lemma no_geotagged_entries (files : list File) :
  forallb (fun f => negb (geotagged f)) files = true ->
  geotagged_entries files = [].
Proof.
  induction files as [|file rest IH]; intro H; [reflexivity|].
  simpl in H. apply andb_true_iff in H as [Hfile Hrest]. simpl.
  destruct (entry_of file) as [entry|] eqn:He; [|exact (IH Hrest)].
  assert (geotagged file = true) as Hg
    by (apply entry_of_geotagged; congruence).
  rewrite Hg in Hfile. discriminate.
Qed.

Lemma some_geotagged_entries (files : list File) :
  existsb geotagged files = true -> geotagged_entries files <> [].
Proof.
  induction files as [|file rest IH]; intro H; [discriminate|].
  simpl in H. simpl.
  destruct (entry_of file) as [entry|] eqn:He; [discriminate|].
  destruct (geotagged file) eqn:Hg.
  - apply entry_of_geotagged in Hg. congruence.
  - exact (IH H).
Qed.

(** *** Sample runs *)

Example upload_two_photos :
  images (handleImageUpload
            (Some [photo "a.jpg" 48.5 2.25; photo "b.jpg" 51.5 (-0.125)])
            initial_state)
  = geotagged_entries [photo "a.jpg" 48.5 2.25; photo "b.jpg" 51.5 (-0.125)].
Proof. reflexivity. Qed.

(** C4. A photo taken on the equator carries a GPS latitude (0) and a GPS
    longitude (10), yet [handleImageUpload] adds no entry for it and reports
    that no GPS data was found. *)
Theorem equator_photo_is_not_plotted :
  let file := photo "equator.jpg" 0 10 in
  let st' := handleImageUpload (Some [file]) initial_state in
  geotagged file = true /\
  entry_of file <> None /\
  images st' = [] /\
  error st' = Some no_gps_message.
Proof.
  cbv zeta. repeat split. discriminate.
Qed.

(** C7, as worded, fails: one geotagged photo followed by a file whose
    extraction throws leaves the images list unchanged. *)
Lemma upload_claim_fails_when_extraction_throws :
  ~ upload_claim [photo "paris.jpg" 48.5 2.25; unreadable_photo "broken.jpg"]
                 initial_state.
Proof.
  unfold upload_claim. cbv zeta. intros [_ Hsome].
  destruct (Hsome eq_refl) as [Himages _].
  discriminate Himages.
Qed.

(** C7, amended. When the extraction of some file throws, the images list
    and the selected index are unchanged and the error is set. When no
    extraction throws and no coordinate is 0 or NaN: with no geotagged file
    the images list and the selected index are unchanged and the error is
    set; with at least one, the images list becomes the geotagged entries
    in file order and the selected index becomes 0. *)
Theorem upload_is_atomic :
  forall (files : list File) (st : MapState),
    let st' := handleImageUpload (Some files) st in
    (existsb extraction_fails files = true ->
       images st' = images st /\
       selectedImageIndex st' = selectedImageIndex st /\
       error st' <> None) /\
    (existsb extraction_fails files = false ->
     forallb coordinates_nonzero files = true ->
       (forallb (fun f => negb (geotagged f)) files = true ->
          images st' = images st /\
          selectedImageIndex st' = selectedImageIndex st /\
          error st' <> None) /\
       (existsb geotagged files = true ->
          images st' = geotagged_entries files /\
          selectedImageIndex st' = 0%Z)).
Proof.
  intros files st. cbv zeta. unfold handleImageUpload. split.
  - intro Hthrows.
    destruct (collect_throws files Hthrows []) as [message ->].
    simpl. repeat split. discriminate.
  - intros Hok Hnz. rewrite (collect_returns files Hok Hnz []). simpl. split.
    + intro Hnone. rewrite (no_geotagged_entries files Hnone). simpl.
      repeat split. discriminate.
    + intro Hsome. pose proof (some_geotagged_entries files Hsome) as Hne.
      destruct (geotagged_entries files) as [|entry entries];
        [congruence|]. simpl. split; reflexivity.
Qed.

Lemma upload_is_atomic_witness :
  let files := [photo "a.jpg" 48.5 2.25; photo "b.jpg" 51.5 (-0.125)] in
  let st' := handleImageUpload (Some files) initial_state in
  images st' = geotagged_entries files /\ selectedImageIndex st' = 0%Z.
Proof.
  intros files st'.
  destruct (upload_is_atomic files initial_state) as [_ Hreturns].
  destruct (Hreturns eq_refl eq_refl) as [_ Hsome].
  exact (Hsome eq_refl).
Defined.

End UploadFacts.

(* ================================================================= *)
(** ** Theorems: GPX                                                   *)
(* ================================================================= *)

Module GpxFacts.
Import Types JS DOM Files Gpx.

(** *** Counted loops that push one value per element *)

Section PushLoop.
Context {A B : Type}.
Variable elements : list A.
Variable f : A -> B.
Variable body : nat -> list B -> outcome (list B).
Hypothesis body_pushes :
  forall i acc x, nth_error elements i = Some x ->
                  body i acc = Returned (acc ++ [f x]).

Lemma for_range_pushes :
  forall (suffix : list A) (i : nat) (acc : list B),
    skipn i elements = suffix ->
    for_range (List.length suffix) i body acc = Returned (acc ++ map f suffix).
Proof.
  induction suffix as [|x rest IH]; intros i acc Hs.
  - simpl. rewrite app_nil_r. reflexivity.
  - assert (nth_error elements i = Some x /\ skipn (S i) elements = rest)
      as [Hx Hrest].
    { clear IH body_pushes. revert i Hs.
      induction elements as [|y ys IHl]; intros i Hs.
      - destruct i; discriminate.
      - destruct i as [|i].
        + simpl in Hs. injection Hs as -> ->. split; reflexivity.
        + simpl in Hs. exact (IHl i Hs). }
    simpl. rewrite (body_pushes i acc x Hx). simpl.
    rewrite (IH (S i) (acc ++ [f x]) Hrest).
    rewrite <- app_assoc. reflexivity.
Qed.

Lemma for_range_maps :
  for_range (List.length elements) 0 body [] = Returned (map f elements).
Proof. exact (for_range_pushes elements 0 [] eq_refl). Qed.

End PushLoop.

(** *** Attributes *)

Lemma parseFloat_0 : parseFloat "0" = PrimFloat.zero.
Proof. vm_compute. reflexivity. Qed.

Lemma attribute_number_coordinate (e : node) (key : string) :
  attribute_number e key = coordinate e key.
Proof.
  unfold attribute_number, coordinate, string_or.
  destruct (getAttribute e key) as [[|c rest]|];
    first [ exact parseFloat_0 | reflexivity ].
Qed.

Section WithPlatform.
Variable buildGPX : GPXData -> string.
Variable parseFromString : string -> string -> Document.
Variable now : Date.

Lemma parseGPX_returns (gpxString : string) :
  parseGPX parseFromString gpxString =
  Returned
    (map (fun e => (attribute_number e "lat", attribute_number e "lon"))
         (getElementsByTagName (parseFromString gpxString "text/xml") "trkpt")).
Proof.
  unfold parseGPX. cbv zeta. apply for_range_maps.
  intros i acc x Hx. unfold parseGPX_body. rewrite Hx. reflexivity.
Qed.

End WithPlatform.

(** C5, as worded, fails: on [<trkpt lat='' lon='5'/>] the latitude read is
    0, not the parsed value of the (present, empty) attribute, which is
    NaN. *)
Lemma parseGPX_claim_fails_on_empty_attribute :
  ~ parseGPX_claim (fun _ _ => empty_lat_document) empty_lat_text.
Proof.
  unfold parseGPX_claim. intro H.
  apply (f_equal (fun result =>
                    match result with
                    | Returned ((x, _) :: _) => PrimFloat.is_nan x
                    | _ => false
                    end)) in H.
  vm_compute in H. discriminate H.
Qed.

(** C5, amended. For every GPX string, [parseGPX] returns one pair for each
    [trkpt] element of the parsed document, in document order; each
    component is the parsed value of the [lat] or [lon] attribute, and a
    missing or empty attribute yields 0. *)
Theorem parseGPX_one_pair_per_trkpt :
  forall (parseFromString : string -> string -> Document) (gpxString : string),
    parseGPX parseFromString gpxString =
    Returned
      (map (fun e => (coordinate e "lat", coordinate e "lon"))
           (getElementsByTagName (parseFromString gpxString "text/xml"%string)
                                 "trkpt")).
Proof.
  intros parseFromString gpxString. rewrite parseGPX_returns.
  f_equal. apply map_ext. intro e.
  rewrite !attribute_number_coordinate. reflexivity.
Qed.

(** *** The GPX viewer upload *)

Section Upload.
Variable parseFromString : string -> string -> Document.

Lemma upload_loop_returns (trkpts : list node) :
  for_range (List.length trkpts) 0 (upload_body trkpts) [] =
  Returned
    (map (fun trkpt =>
            mkGPXPoint (attribute_number trkpt "lat")
                       (attribute_number trkpt "lon")
                       (child_text trkpt "name") (child_text trkpt "time"))
         trkpts).
Proof.
  apply for_range_maps. intros i acc x Hx.
  unfold upload_body. rewrite Hx. reflexivity.
Qed.

(** [read_track] returns a non-empty list exactly on a file with a track,
    and throws on every other file. *)
Lemma read_track_cases (file : File) :
  (has_track parseFromString file /\
   exists points, points <> [] /\
                  read_track parseFromString file = Returned points) \/
  (~ has_track parseFromString file /\
   exists message, read_track parseFromString file = Threw message).
Proof.
  unfold read_track, has_track.
  destruct (text file) as [content|message] eqn:Htext; simpl.
  - destruct (getElementsByTagName (parseFromString content "application/xml")
                                   "parsererror") as [|e errors] eqn:Herr.
    + simpl. rewrite upload_loop_returns. simpl.
      destruct (getElementsByTagName (parseFromString content "application/xml")
                                     "trkpt") as [|t trkpts] eqn:Htrk.
      * right. simpl. split; [|eauto].
        intros (content' & Heq & _ & Hne). injection Heq as <-.
        rewrite Htrk in Hne. congruence.
      * left. simpl. split.
        -- exists content. rewrite Herr, Htrk. repeat split. discriminate.
        -- eexists. split; [|reflexivity]. discriminate.
    + right. simpl. split; [|eauto].
      intros (content' & Heq & Hnone & _). injection Heq as <-.
      rewrite Herr in Hnone. discriminate.
  - right. split; [|eauto].
    intros (content' & Heq & _). discriminate.
Qed.

End Upload.

(** C6. After [handleGpxUpload] on an uploaded file, [gpxPoints] is
    non-empty if and only if the file reads as XML with no [parsererror]
    element and at least one [trkpt] element; in every other case
    [gpxPoints] is empty and [gpxError] is set. *)
Theorem gpx_upload_sets_points_or_error :
  forall (parseFromString : string -> string -> Document)
         (file : File) (others : list File) (st : GpxState),
    let st' := handleGpxUpload parseFromString (Some (file :: others)) st in
    (gpxPoints st' <> [] <-> has_track parseFromString file) /\
    (~ has_track parseFromString file ->
       gpxPoints st' = [] /\ gpxError st' <> None).
Proof.
  intros parseFromString file others st. cbv zeta. unfold handleGpxUpload.
  destruct (read_track_cases parseFromString file)
    as [(Htrack & points & Hne & ->) | (Hnone & message & ->)]; simpl.
  - split; [tauto | contradiction].
  - split; [split; [congruence | contradiction] |].
    intros _. split; [reflexivity | discriminate].
Qed.

Lemma gpx_upload_sets_points_or_error_witness :
  gpxPoints (handleGpxUpload sample_parseFromString (Some [sample_gpx_file])
                             (mkGpxState None [] false None)) <> [].
Proof.
  apply (gpx_upload_sets_points_or_error
           sample_parseFromString sample_gpx_file []
           (mkGpxState None [] false None)).
  exists sample_text.
  split; [reflexivity | split; [reflexivity | vm_compute; discriminate]].
Defined.

(** *** Writing a route and reading it back *)

Lemma written_points_read_back (points : list Point) (trkpts : list node) :
  Forall2 writes_point points trkpts ->
  map (fun e => (attribute_number e "lat", attribute_number e "lon")) trkpts =
  map (fun p => (lat p, lon p)) points.
Proof.
  induction 1 as [|p e points trkpts Hpe _ IH]; [reflexivity|].
  simpl. rewrite IH. f_equal.
  destruct Hpe as (slat & slon & Hlat & Hlon & [Hne1 Hr1] & [Hne2 Hr2]).
  unfold attribute_number. rewrite Hlat, Hlon. simpl.
  destruct slat as [|c1 r1]; [congruence|].
  destruct slon as [|c2 r2]; [congruence|].
  rewrite Hr1, Hr2. reflexivity.
Qed.

End GpxFacts.

(* ================================================================= *)
(** ** Further properties: navigation                                  *)
(* ================================================================= *)

Module NavMore.
Import Nav.
Local Open Scope Z_scope.

(** X1. Inside a non-empty list, going to the next photo and back returns
    to the same photo unless the selection was on the last one, and going
    back and forth returns to it unless it was on the first one. *)
Theorem next_previous_round_trip :
  forall (A : Type) (images : list A) (i : Z),
    in_bounds images i ->
    (i < length_of images - 1 -> handlePrevious (handleNext images i) = i) /\
    (0 < i -> handleNext images (handlePrevious i) = i).
Proof.
  intros A images i [Hlo Hhi]. unfold handleNext, handlePrevious.
  split; intro; lia.
Qed.

Lemma next_previous_round_trip_witness :
  handlePrevious (handleNext [1%nat; 2%nat; 3%nat] 1) = 1 /\
  handleNext [1%nat; 2%nat; 3%nat] (handlePrevious 1) = 1.
Proof.
  destruct (next_previous_round_trip nat [1%nat; 2%nat; 3%nat] 1) as [Hn Hp].
  - unfold in_bounds, length_of. simpl. lia.
  - split; [apply Hn | apply Hp]; unfold length_of; simpl; lia.
Defined.

Lemma iter_next (A : Type) (images : list A) (n : nat) (i : Z) :
  i <= length_of images - 1 ->
  Nat.iter n (handleNext images) i = Z.min (i + Z.of_nat n) (length_of images - 1).
Proof.
  intro Hi. induction n as [|n IH].
  - simpl. lia.
  - rewrite Nat.iter_succ, IH. unfold handleNext. lia.
Qed.

Lemma iter_previous (n : nat) (i : Z) :
  0 <= i -> Nat.iter n handlePrevious i = Z.max (i - Z.of_nat n) 0.
Proof.
  intro Hi. induction n as [|n IH].
  - simpl. lia.
  - rewrite Nat.iter_succ, IH. unfold handlePrevious. lia.
Qed.

(** X2. From a selection inside the list, [n] presses of next select photo
    [min(i + n, length - 1)] and [n] presses of previous select photo
    [max(i - n, 0)]: the selection moves one photo per press and stops at
    the ends. *)
Theorem repeated_navigation :
  forall (A : Type) (images : list A) (n : nat) (i : Z),
    in_bounds images i ->
    Nat.iter n (handleNext images) i =
      Z.min (i + Z.of_nat n) (length_of images - 1) /\
    Nat.iter n handlePrevious i = Z.max (i - Z.of_nat n) 0.
Proof.
  intros A images n i [Hlo Hhi]. split.
  - apply iter_next. exact Hhi.
  - apply iter_previous. exact Hlo.
Qed.

Lemma repeated_navigation_witness :
  Nat.iter 5 (handleNext [1%nat; 2%nat; 3%nat]) 1 = 2 /\
  Nat.iter 5 handlePrevious 1 = 0.
Proof.
  apply (repeated_navigation nat [1%nat; 2%nat; 3%nat] 5 1).
  unfold in_bounds, length_of. simpl. lia.
Defined.

End NavMore.

(* ================================================================= *)
(** ** Further properties: route length                                *)
(* ================================================================= *)

Module HaversineMore.
Import Types Haversine.
Import PrimFloat.
Local Open Scope float_scope.



End HaversineMore.

(* ================================================================= *)
(** ** Further properties: the map tab                                 *)
(* ================================================================= *)

Module MapTabFacts.
Import Types JS Files Upload MapTab.
Import PrimFloat.
Local Open Scope float_scope.

(** *** What the collecting loop returns *)

Lemma gps_entry_fields (file : File) (metadata : option Exif) (entry : Image) :
  gps_entry file metadata = Some entry ->
  plottable entry = true /\ fileName entry = name file.
Proof.
  unfold gps_entry, plottable.
  destruct metadata as [md|]; [|discriminate].
  destruct (exif_latitude md) as [lat|]; [|discriminate].
  destruct (exif_longitude md) as [lon|]; [|discriminate].
  destruct (truthy lat && truthy lon)%bool eqn:Htest; [|discriminate].
  intro H. injection H as <-. simpl. split; [exact Htest | reflexivity].
Qed.

Lemma accepted_entry_fields (file : File) (entry : Image) :
  accepted_entry file = Some entry ->
  plottable entry = true /\ fileName entry = name file.
Proof.
  unfold accepted_entry.
  destruct (exifr_parse file) as [metadata|message]; [|discriminate].
  apply gps_entry_fields.
Qed.

(** When the loop returns, it has appended the accepted entries of the
    batch to its accumulator, in file order. *)
Lemma collect_accepted (files : list File) :
  forall acc newImages,
    collect files acc = Returned newImages ->
    newImages = acc ++ accepted_entries files.
Proof.
  induction files as [|file rest IH]; intros acc newImages H.
  - simpl in H. injection H as <-. simpl. rewrite app_nil_r. reflexivity.
  - simpl in H. simpl. unfold accepted_entry.
    destruct (exifr_parse file) as [metadata|message]; [|discriminate].
    simpl in H. rewrite (IH _ _ H).
    destruct (gps_entry file metadata) as [entry|]; [|reflexivity].
    rewrite <- app_assoc. reflexivity.
Qed.

Lemma accepted_entries_plottable (files : list File) :
  forallb plottable (accepted_entries files) = true.
Proof.
  induction files as [|file rest IH]; [reflexivity|]. simpl.
  destruct (accepted_entry file) as [entry|] eqn:He; [|exact IH].
  simpl. rewrite IH. destruct (accepted_entry_fields _ _ He) as [-> _].
  reflexivity.
Qed.

Lemma accepted_entries_names (files : list File) :
  map fileName (accepted_entries files) =
  map name (filter (fun f => match accepted_entry f with
                             | Some _ => true
                             | None => false
                             end) files).
Proof.
  induction files as [|file rest IH]; [reflexivity|]. simpl.
  destruct (accepted_entry file) as [entry|] eqn:He; [|exact IH].
  simpl. rewrite IH. destruct (accepted_entry_fields _ _ He) as [_ ->].
  reflexivity.
Qed.

(** *** Adding images *)

Lemma length_zero_nil {A : Type} (l : list A) :
  Nat.eqb (List.length l) 0 = true <-> l = [].
Proof. destruct l; simpl; split; (reflexivity || discriminate). Qed.

Lemma includes_In (names : list string) (x : string) :
  includes names x = true <-> In x names.
Proof.
  unfold includes. rewrite existsb_exists. split.
  - intros (y & Hy & Heq). apply String.eqb_eq in Heq. subst. exact Hy.
  - intro H. exists x. split; [exact H | apply String.eqb_refl].
Qed.

(** The state [handleAddImages] leaves, field by field. *)
Lemma add_images_state (files : list File) (st : MapState) :
  let st' := handleAddImages (Some files) st in
  let added := added_by files st in
  images st' = images st ++ added /\
  selectedImageIndex st' =
    match added with
    | [] => selectedImageIndex st
    | _ :: _ => Z.of_nat (List.length (images st))
    end /\
  (added = [] -> error st' <> None) /\
  (added <> [] -> error st' = None) /\
  loading st' = false.
Proof.
  unfold handleAddImages, added_by. cbv zeta.
  destruct (collect files []) as [newImages|message].
  - match goal with
    | |- context [filter ?f newImages] =>
        destruct (filter f newImages) as [|x added]
    end; simpl.
    + rewrite app_nil_r. repeat split;
        first [ discriminate | congruence | intro H; exfalso; apply H; reflexivity ].
    + repeat split;
        first [ discriminate | congruence | intro H; exfalso; apply H; reflexivity ].
  - simpl. rewrite app_nil_r. repeat split;
        first [ discriminate | congruence | intro H; exfalso; apply H; reflexivity ].
Qed.

Lemma added_by_fresh (files : list File) (st : MapState) :
  forall img, In img (added_by files st) ->
              ~ In (fileName img) (map fileName (images st)).
Proof.
  intros img Hin. unfold added_by in Hin.
  destruct (collect files []) as [newImages|message]; [|contradiction].
  apply filter_In in Hin as [_ Hfresh].
  apply negb_true_iff in Hfresh. intro Hold.
  apply includes_In in Hold. congruence.
Qed.




(** *** Both handlers through the batch they collect *)

Lemma batch_accepted (files : list File) :
  batch files = [] \/ batch files = accepted_entries files.
Proof.
  unfold batch. destruct (collect files []) as [newImages|message] eqn:Hc.
  - right. apply (collect_accepted files [] newImages Hc).
  - left. reflexivity.
Qed.

Lemma added_by_batch (files : list File) (st : MapState) :
  added_by files st =
  filter (fun newImg =>
            negb (includes (map fileName (images st)) (fileName newImg)))
         (batch files).
Proof.
  unfold added_by, batch.
  destruct (collect files []); reflexivity.
Qed.

Lemma upload_state (files : list File) (st : MapState) :
  let st' := handleImageUpload (Some files) st in
  images st' = match batch files with [] => images st | b => b end /\
  selectedImageIndex st' =
    match batch files with [] => selectedImageIndex st | _ => 0%Z end /\
  loading st' = false.
Proof.
  cbv zeta. unfold handleImageUpload, batch.
  destruct (collect files []) as [[|x newImages]|message]; simpl;
    repeat split.
Qed.

Lemma filter_nil_iff {A : Type} (p : A -> bool) (l : list A) :
  filter p l = [] <-> forall x, In x l -> p x = false.
Proof.
  induction l as [|a l IH]; simpl.
  - split; [intros _ x [] | reflexivity].
  - destruct (p a) eqn:Hp; split.
    + discriminate.
    + intro H. specialize (H a (or_introl eq_refl)). congruence.
    + intros Hf x [<-|Hx]; [exact Hp | apply IH; assumption].
    + intro H. apply IH. intros x Hx. apply H. right. exact Hx.
Qed.

Lemma distinct_keys_filtered {Item Key : Type} (key : Item -> Key)
    (keep : Item -> bool) :
  forall items : list Item,
    NoDup (map key items) -> NoDup (map key (filter keep items)).
Proof.
  intro items. induction items as [|item items IH]; simpl; intro Hdistinct.
  - constructor.
  - apply NoDup_cons_iff in Hdistinct as [Hfresh Hrest].
    destruct (keep item); [|exact (IH Hrest)].
    simpl. constructor; [|exact (IH Hrest)].
    intro Hin. apply Hfresh. apply in_map_iff in Hin as (x & Hx & Hkept).
    apply filter_In in Hkept as [Hkept _]. rewrite <- Hx.
    apply in_map. exact Hkept.
Qed.

(** X9. When the existing images have pairwise distinct file names and the
    files of the batch have pairwise distinct names, the images still have
    pairwise distinct file names after [handleAddImages]. *)
Theorem add_images_keeps_names_distinct :
  forall (files : list File) (st : MapState),
    NoDup (map fileName (images st)) ->
    NoDup (map name files) ->
    NoDup (map fileName (images (handleAddImages (Some files) st))).
Proof.
  intros files st Hold Hnew.
  destruct (add_images_state files st) as (-> & _).
  rewrite map_app. apply NoDup_app.
  - exact Hold.
  - rewrite added_by_batch. apply distinct_keys_filtered.
    destruct (batch_accepted files) as [->| ->]; [constructor|].
    rewrite accepted_entries_names. apply distinct_keys_filtered. exact Hnew.
  - intros x Hx Hadded. apply in_map_iff in Hadded as (img & <- & Himg).
    exact (added_by_fresh files st img Himg Hx).
Qed.

Lemma add_images_keeps_names_distinct_witness :
  NoDup (map fileName
           (images (handleAddImages
                      (Some [photo "a.jpg" 48.5 2.25; photo "b.jpg" 51.5 2.25])
                      (handleImageUpload (Some [photo "a.jpg" 48.5 2.25])
                                         initial_state)))).
Proof.
  apply add_images_keeps_names_distinct.
  - simpl. repeat constructor. intros [].
  - simpl. repeat constructor.
    + intros [H|[]]. discriminate H.
    + intros [].
Defined.

Lemma nothing_left_to_add (files : list File) (st : MapState) :
  (forall img, In img (batch files) ->
               In (fileName img) (map fileName (images st))) ->
  added_by files st = [].
Proof.
  intro H. rewrite added_by_batch. apply filter_nil_iff.
  intros img Himg. apply negb_false_iff. apply includes_In. exact (H img Himg).
Qed.

(** X10. Picking the same files again adds nothing: after
    [handleAddImages] or [handleImageUpload] on a batch, [handleAddImages]
    on the same batch leaves the images and the selection as they are. *)
Theorem adding_the_same_files_again_changes_nothing :
  forall (files : list File) (st : MapState),
    (let st1 := handleAddImages (Some files) st in
     let st2 := handleAddImages (Some files) st1 in
     images st2 = images st1 /\
     selectedImageIndex st2 = selectedImageIndex st1) /\
    (let st1 := handleImageUpload (Some files) st in
     let st2 := handleAddImages (Some files) st1 in
     images st2 = images st1 /\
     selectedImageIndex st2 = selectedImageIndex st1).
Proof.
  intros files st. cbv zeta. split.
  - set (st1 := handleAddImages (Some files) st).
    destruct (add_images_state files st1) as (Himg & Hsel & _).
    assert (added_by files st1 = []) as Hnone.
    { apply (nothing_left_to_add files st1). intros img Himg1.
      unfold st1. destruct (add_images_state files st) as (-> & _).
      rewrite map_app, in_app_iff.
      destruct (includes (map fileName (images st)) (fileName img)) eqn:Hinc.
      - left. apply includes_In. exact Hinc.
      - right. apply in_map. rewrite added_by_batch. apply filter_In.
        split; [exact Himg1 | rewrite Hinc; reflexivity]. }
    rewrite Hnone, app_nil_r in *. split; assumption.
  - set (st1 := handleImageUpload (Some files) st).
    destruct (add_images_state files st1) as (Himg & Hsel & _).
    assert (added_by files st1 = []) as Hnone.
    { apply (nothing_left_to_add files st1). intros img Himg1.
      unfold st1. destruct (upload_state files st) as (-> & _).
      destruct (batch files) as [|x b]; [contradiction|].
      apply in_map. exact Himg1. }
    rewrite Hnone, app_nil_r in *. split; assumption.
Qed.

(** X11. While no image is loaded, both buttons do the same to the images
    and to the selection. *)
Theorem add_images_on_empty_list_is_upload :
  forall (files : list File) (st : MapState),
    images st = [] ->
    images (handleAddImages (Some files) st) =
      images (handleImageUpload (Some files) st) /\
    selectedImageIndex (handleAddImages (Some files) st) =
      selectedImageIndex (handleImageUpload (Some files) st).
Proof.
  intros files st Hempty.
  destruct (add_images_state files st) as (-> & -> & _).
  destruct (upload_state files st) as (-> & -> & _).
  rewrite added_by_batch, Hempty. simpl.
  rewrite forallb_filter_id.
  - destruct (batch files); split; reflexivity.
  - apply forallb_forall. reflexivity.
Qed.

Lemma add_images_on_empty_list_is_upload_witness :
  images (handleAddImages (Some [photo "a.jpg" 48.5 2.25]) initial_state) =
    images (handleImageUpload (Some [photo "a.jpg" 48.5 2.25]) initial_state) /\
  selectedImageIndex
    (handleAddImages (Some [photo "a.jpg" 48.5 2.25]) initial_state) =
  selectedImageIndex
    (handleImageUpload (Some [photo "a.jpg" 48.5 2.25]) initial_state).
Proof.
  apply add_images_on_empty_list_is_upload. reflexivity.
Defined.

(** *** Invariants of the map tab *)

Lemma selection_ok_step (st : MapState) (ev : event) :
  selection_ok st -> enabled ev st -> selection_ok (react ev st).
Proof.
  unfold selection_ok. intros [Hlo Hhi] Hen.
  destruct ev as [files|files| | |index]; simpl in *.
  - destruct files as [files|]; [|simpl; tauto].
    destruct (upload_state files st) as (-> & -> & _).
    destruct (batch files) as [|x b]; [tauto|].
    simpl List.length. split; [|left]; lia.
  - destruct files as [files|]; [|simpl; tauto].
    destruct (add_images_state files st) as (-> & -> & _).
    destruct (added_by files st) as [|x added].
    + rewrite app_nil_r. tauto.
    + rewrite length_app. simpl List.length. split; [|left]; lia.
  - unfold Nav.handleNext, Nav.length_of.
    destruct (images st) as [|x xs]; [congruence|].
    simpl List.length in *. split; [|left]; lia.
  - unfold Nav.handlePrevious.
    destruct (images st) as [|x xs]; [congruence|].
    simpl List.length in *. split; [|left]; lia.
  - split; [|left]; lia.
Qed.

(** X12. In every state the map tab can reach, the selected index is never
    negative and points at an image whenever there is one: the viewer
    always has a current image to show. *)
Theorem selection_always_points_at_an_image :
  forall st : MapState,
    reachable st ->
    selection_ok st /\
    (images st <> [] ->
     exists img,
       nth_error (images st) (Z.to_nat (selectedImageIndex st)) = Some img).
Proof.
  intros st Hreach.
  assert (selection_ok st) as Hok.
  { induction Hreach as [|st ev _ IH Hen].
    - unfold selection_ok. simpl. split; [lia | right; split; reflexivity].
    - exact (selection_ok_step st ev IH Hen). }
  split; [exact Hok|]. intro Hne.
  destruct Hok as [Hlo [Hhi|[_ Hnil]]]; [|contradiction].
  destruct (nth_error (images st) (Z.to_nat (selectedImageIndex st)))
    as [img|] eqn:Hnth; [exists img; reflexivity|].
  apply nth_error_None in Hnth. lia.
Qed.

Lemma selection_always_points_at_an_image_witness :
  selection_ok
    (react Next (react (UploadImages (Some two_photos)) initial_state)).
Proof.
  apply (selection_always_points_at_an_image
           (react Next (react (UploadImages (Some two_photos)) initial_state))).
  apply reachable_step.
  - apply reachable_step; [apply reachable_initial | exact I].
  - simpl. discriminate.
Defined.

Lemma plottable_step (st : MapState) (ev : event) :
  forallb plottable (images st) = true ->
  forallb plottable (images (react ev st)) = true.
Proof.
  intro H. destruct ev as [files|files| | |index]; simpl; try exact H.
  - destruct files as [files|]; [|exact H].
    destruct (upload_state files st) as (-> & _).
    destruct (batch_accepted files) as [->|Hb]; [exact H|].
    destruct (batch files) as [|x b] eqn:Hbatch; [exact H|].
    rewrite Hb. apply accepted_entries_plottable.
  - destruct files as [files|]; [|exact H].
    destruct (add_images_state files st) as (-> & _).
    rewrite forallb_app, H. simpl.
    rewrite added_by_batch. apply forallb_forall. intros img Himg.
    apply filter_In in Himg as [Himg _].
    destruct (batch_accepted files) as [Hb|Hb]; rewrite Hb in Himg;
      [contradiction|].
    pose proof (accepted_entries_plottable files) as Hall.
    rewrite forallb_forall in Hall. exact (Hall img Himg).
Qed.

(** X13. In every state the map tab can reach, no image of the list has a
    latitude or a longitude that is 0 or NaN, and no handler is left
    loading. *)
Theorem images_always_have_nonzero_coordinates :
  forall st : MapState,
    reachable st ->
    forallb plottable (images st) = true /\ loading st = false.
Proof.
  intros st Hreach. induction Hreach as [|st ev _ [IHp IHl] Hen].
  - split; reflexivity.
  - split; [exact (plottable_step st ev IHp)|].
    destruct ev as [[files|]|[files|]| | |index]; simpl;
      first [ exact IHl | reflexivity ].
Qed.

Lemma images_always_have_nonzero_coordinates_witness :
  forallb plottable
    (images (react Next (react (UploadImages (Some two_photos)) initial_state)))
  = true.
Proof.
  apply (images_always_have_nonzero_coordinates
           (react Next (react (UploadImages (Some two_photos)) initial_state))).
  apply reachable_step.
  - apply reachable_step; [apply reachable_initial | exact I].
  - simpl. discriminate.
Defined.

End MapTabFacts.

(* ================================================================= *)
(** ** Further properties: markers of the sampled map                  *)
(* ================================================================= *)

Module MarkersFacts.
Import Types JS Sampling Markers.
Local Open Scope Z_scope.

Lemma rate_range (zoom : Q) : 1 <= calculateSampleRate zoom <= 40.
Proof.
  unfold calculateSampleRate.
  repeat match goal with
  | |- context [geq ?z ?k] => destruct (geq z k)
  end; lia.
Qed.

Lemma waypointIndices_spec (images : list Image) (i : Z) :
  In i (waypointIndices images) <-> 0 <= i < Z.of_nat (List.length images).
Proof.
  unfold waypointIndices. rewrite in_map_iff. split.
  - intros (k & <- & Hk). apply in_seq in Hk. lia.
  - intro H. exists (Z.to_nat i). split; [lia|]. apply in_seq. lia.
Qed.

Section Viewport.
Variable Bounds : Type.
Variable contains : Bounds -> LatLng -> bool.

Lemma in_viewport_returns (images : list Image) (selectedIndex : Z)
    (bounds : option Bounds) (imageIdx : Z) :
  0 <= imageIdx < Z.of_nat (List.length images) ->
  in_viewport Bounds contains images selectedIndex bounds imageIdx =
  Returned (visible Bounds contains images selectedIndex bounds imageIdx).
Proof.
  intro Hrange. unfold in_viewport, visible.
  destruct (Z.eqb imageIdx 0 ||
            Z.eqb imageIdx (Z.of_nat (List.length images) - 1))%bool;
    [reflexivity|].
  destruct (Z.eqb imageIdx selectedIndex); [reflexivity|]. simpl.
  destruct bounds as [b|]; [|reflexivity].
  destruct (nth_error (coordinates images) (Z.to_nat imageIdx)) as [c|] eqn:Hc;
    [reflexivity|].
  apply nth_error_None in Hc. unfold coordinates in Hc.
  rewrite length_map in Hc. unfold Image in *. exfalso. lia.
Qed.

Lemma filter_try_returns {A : Type} (p : A -> outcome bool) (q : A -> bool)
    (l : list A) :
  (forall x, In x l -> p x = Returned (q x)) ->
  filter_try p l = Returned (filter q l).
Proof.
  induction l as [|x rest IH]; intro H; [reflexivity|].
  simpl. rewrite (H x (or_introl eq_refl)). simpl.
  rewrite IH by (intros y Hy; apply H; right; exact Hy). simpl.
  destruct (q x); reflexivity.
Qed.

(** The second filter never throws: every sampled index has coordinates. *)
Lemma markersToRender_returns (images : list Image) (selectedIndex : Z)
    (zoomLevel : Q) (bounds : option Bounds) :
  markersToRender Bounds contains images selectedIndex zoomLevel bounds =
  Returned (rendered Bounds contains images selectedIndex zoomLevel bounds).
Proof.
  unfold markersToRender, rendered. apply filter_try_returns.
  intros i Hi. apply in_viewport_returns.
  unfold sampledWaypointIndices in Hi. apply filter_In in Hi as [Hi _].
  apply waypointIndices_spec. exact Hi.
Qed.

End Viewport.

(** *** Lists of indices *)

Lemma indices_sorted (a n : nat) :
  StronglySorted Z.lt (map Z.of_nat (seq a n)).
Proof.
  revert a. induction n as [|n IH]; intro a; simpl; constructor.
  - apply IH.
  - apply Forall_forall. intros i Hi.
    apply in_map_iff in Hi as (k & <- & Hk). apply in_seq in Hk. lia.
Qed.

Lemma sorted_filter (p : Z -> bool) (l : list Z) :
  StronglySorted Z.lt l -> StronglySorted Z.lt (filter p l).
Proof.
  induction 1 as [|a l Hl IH Ha]; simpl; [constructor|].
  destruct (p a); [|exact IH]. constructor; [exact IH|].
  apply Forall_forall. intros x Hx. apply filter_In in Hx as [Hx _].
  rewrite Forall_forall in Ha. exact (Ha x Hx).
Qed.

Lemma filter_length_mono {A : Type} (p q : A -> bool) (l : list A) :
  (forall x, p x = true -> q x = true) ->
  (List.length (filter p l) <= List.length (filter q l))%nat.
Proof.
  intro H. induction l as [|a l IH]; simpl; [apply le_n|].
  destruct (p a) eqn:Hp.
  - rewrite (H a Hp). simpl. apply le_n_S, IH.
  - destruct (q a); simpl; [apply le_S, IH | exact IH].
Qed.

Lemma filter_length_or {A : Type} (p q : A -> bool) (l : list A) :
  (List.length (filter (fun x => p x || q x)%bool l) <=
   List.length (filter p l) + List.length (filter q l))%nat.
Proof.
  induction l as [|a l IH]; simpl; [apply le_n|].
  destruct (p a), (q a); simpl; lia.
Qed.

Lemma filter_length_one (c : Z) (l : list Z) :
  StronglySorted Z.lt l ->
  (List.length (filter (fun i => Z.eqb i c) l) <= 1)%nat.
Proof.
  induction 1 as [|a l Hl IH Ha]; simpl; [lia|].
  destruct (Z.eqb a c) eqn:Hac; [|exact IH].
  apply Z.eqb_eq in Hac. subst a. simpl.
  replace (filter (fun i => Z.eqb i c) l) with (@nil Z); [simpl; lia|].
  symmetry. apply MapTabFacts.filter_nil_iff.
  intros x Hx. rewrite Forall_forall in Ha. specialize (Ha x Hx).
  apply Z.eqb_neq. lia.
Qed.

(** Among the first [n] indices at most [ceil(n / r)] are multiples of
    [r]. *)
Lemma multiples_count (r : Z) (n : nat) :
  0 < r ->
  Z.of_nat (List.length (filter (fun i => Z.eqb (Z.rem i r) 0)
                                (map Z.of_nat (seq 0 n))))
  <= (Z.of_nat n + r - 1) / r.
Proof.
  intro Hr. induction n as [|n IH].
  - simpl. apply Z.div_pos; lia.
  - rewrite seq_S, map_app, filter_app, length_app. simpl map. simpl filter.
    rewrite Nat2Z.inj_add.
    destruct (Z.eqb (Z.rem (Z.of_nat n) r) 0) eqn:Hrem; simpl List.length.
    + apply Z.eqb_eq in Hrem.
      rewrite Z.rem_mod_nonneg in Hrem by lia.
      assert ((Z.of_nat n + r - 1) / r + 1 <= (Z.of_nat (S n) + r - 1) / r).
      { replace (Z.of_nat (S n) + r - 1) with (Z.of_nat n + 1 * r) by lia.
        rewrite Z.div_add by lia.
        assert ((Z.of_nat n + r - 1) / r <= Z.of_nat n / r); [|lia].
        apply Z.mod_divide in Hrem; [|lia]. destruct Hrem as [q Hq].
        rewrite Hq. replace (q * r + r - 1) with ((r - 1) + q * r) by lia.
        rewrite Z.div_add, Z.div_mul by lia.
        rewrite Z.div_small by lia. lia. }
      lia.
    + assert ((Z.of_nat n + r - 1) / r <= (Z.of_nat (S n) + r - 1) / r)
        by (apply Z.div_le_mono; lia).
      lia.
Qed.

(** *** The markers the map renders *)

Section Rendered.
Variable Bounds : Type.
Variable contains : Bounds -> LatLng -> bool.
Variable images : list Image.
Variable selectedIndex : Z.
Variable zoomLevel : Q.
Variable bounds : option Bounds.

Lemma In_markers (i : Z) :
  In i (rendered Bounds contains images selectedIndex zoomLevel bounds) <->
  0 <= i < Z.of_nat (List.length images) /\
  (i = 0 \/ i = Z.of_nat (List.length images) - 1 \/ i = selectedIndex \/
   (Z.rem i (calculateSampleRate zoomLevel) = 0 /\
    match bounds, nth_error (coordinates images) (Z.to_nat i) with
    | None, _ => True
    | Some b, Some c => contains b c = true
    | Some _, None => False
    end)).
Proof.
  unfold rendered, sampledWaypointIndices. cbv zeta.
  rewrite !filter_In, waypointIndices_spec. unfold visible.
  rewrite !orb_true_iff, !Z.eqb_eq.
  destruct bounds as [b|];
    [destruct (nth_error (coordinates images) (Z.to_nat i)) as [c|]|];
    intuition (auto; try discriminate).
Qed.

Lemma markers_sorted :
  StronglySorted Z.lt (rendered Bounds contains images selectedIndex zoomLevel bounds).
Proof.
  unfold rendered, sampledWaypointIndices. cbv zeta.
  do 2 apply sorted_filter. apply indices_sorted.
Qed.

Lemma markers_count :
  Z.of_nat (List.length (rendered Bounds contains images selectedIndex zoomLevel bounds)) <=
  (Z.of_nat (List.length images) + calculateSampleRate zoomLevel - 1)
    / calculateSampleRate zoomLevel + 2.
Proof.
  pose proof (rate_range zoomLevel) as Hrate.
  set (r := calculateSampleRate zoomLevel) in *.
  set (l := waypointIndices images).
  set (last := Z.of_nat (List.length images) - 1).
  assert (List.length (rendered Bounds contains images selectedIndex zoomLevel bounds) <=
          List.length (filter (fun i => Z.eqb (Z.rem i r) 0) l) +
          List.length (filter (fun i => Z.eqb i last) l) +
          List.length (filter (fun i => Z.eqb i selectedIndex) l))%nat as Hsplit.
  { unfold rendered, sampledWaypointIndices. cbv zeta. fold r l last.
    eapply Nat.le_trans; [apply filter_length_le|].
    eapply Nat.le_trans;
      [apply (filter_length_mono _
                (fun i => (Z.eqb (Z.rem i r) 0 || Z.eqb i last) ||
                          Z.eqb i selectedIndex)%bool)|].
    - intros x Hx. rewrite !orb_true_iff in *.
      destruct Hx as [[[H0|Hl]|Hm]|Hs]; auto.
      apply Z.eqb_eq in H0. subst x. left. left. rewrite Z.rem_0_l by lia.
      reflexivity.
    - eapply Nat.le_trans; [apply filter_length_or|].
      apply Nat.add_le_mono_r. apply filter_length_or. }
  pose proof (multiples_count r (List.length images) ltac:(lia)) as Hmult.
  pose proof (filter_length_one last l (indices_sorted 0 _)) as Hlast.
  pose proof (filter_length_one selectedIndex l (indices_sorted 0 _)) as Hsel.
  fold (waypointIndices images) in Hmult. fold l in Hmult.
  lia.
Qed.

End Rendered.

(** X14. However far the map is zoomed out and wherever it is panned, the
    markers of the first image, of the last image and of the selected image
    are rendered, and the marker of the selected image is the only one with a
    highlighted icon. *)
Theorem ends_and_selection_always_rendered :
  forall (Bounds : Type) (contains : Bounds -> LatLng -> bool)
         (images : list Image) (selectedIndex : Z) (zoomLevel : Q)
         (bounds : option Bounds),
    images <> [] ->
    exists markers : list Z,
      markersToRender Bounds contains images selectedIndex zoomLevel bounds =
        Returned markers /\
      In 0 markers /\
      In (Z.of_nat (List.length images) - 1) markers /\
      (0 <= selectedIndex < Z.of_nat (List.length images) ->
       In selectedIndex markers) /\
      (forall i, In i markers ->
                 (highlighted (marker_icon images selectedIndex i) = true <->
                  i = selectedIndex)).
Proof.
  intros Bounds contains images selectedIndex zoomLevel bounds Hne.
  eexists. split; [apply markersToRender_returns|].
  assert (0 < Z.of_nat (List.length images)) as Hlen
    by (destruct images; [congruence | simpl List.length; lia]).
  repeat split.
  - apply In_markers. split; [lia | auto].
  - apply In_markers. split; [lia | auto].
  - intro Hsel. apply In_markers. split; [lia | auto].
  - unfold marker_icon.
    destruct (Z.eqb i 0), (Z.eqb i (Z.of_nat (List.length images) - 1));
      destruct (Z.eqb i selectedIndex) eqn:Hs; simpl; try discriminate;
      intros _; apply Z.eqb_eq; exact Hs.
  - intros ->. unfold marker_icon. rewrite Z.eqb_refl.
    destruct (Z.eqb selectedIndex 0),
             (Z.eqb selectedIndex (Z.of_nat (List.length images) - 1));
      reflexivity.
Qed.

Lemma ends_and_selection_always_rendered_witness :
  exists markers : list Z,
    markersToRender unit nothing_in_view sample_images 57 13 (Some tt) =
      Returned markers /\
    In 0 markers /\ In 99 markers /\ (0 <= 57 < 100 -> In 57 markers) /\
    (forall i, In i markers ->
               (highlighted (marker_icon sample_images 57 i) = true <-> i = 57)).
Proof.
  apply (ends_and_selection_always_rendered
           unit nothing_in_view sample_images 57 13 (Some tt)).
  discriminate.
Defined.

(** X15. The rendered markers are indices of images in strictly increasing
    order: no image gets two markers and each marker has an image and its
    coordinates to show. *)
Theorem rendered_markers_are_distinct_image_indices :
  forall (Bounds : Type) (contains : Bounds -> LatLng -> bool)
         (images : list Image) (selectedIndex : Z) (zoomLevel : Q)
         (bounds : option Bounds),
    exists markers : list Z,
      markersToRender Bounds contains images selectedIndex zoomLevel bounds =
        Returned markers /\
      StronglySorted Z.lt markers /\
      (forall i, In i markers ->
         0 <= i /\
         exists img,
           nth_error images (Z.to_nat i) = Some img /\
           nth_error (coordinates images) (Z.to_nat i) =
             Some (latitude img, longitude img)).
Proof.
  intros Bounds contains images selectedIndex zoomLevel bounds.
  eexists. split; [apply markersToRender_returns|]. split.
  - apply markers_sorted.
  - intros i Hi. apply In_markers in Hi as [Hrange _]. split; [lia|].
    destruct (nth_error images (Z.to_nat i)) as [img|] eqn:Himg.
    + exists img. split; [reflexivity|].
      unfold coordinates. rewrite nth_error_map.
      unfold Image in *. rewrite Himg. reflexivity.
    + apply nth_error_None in Himg. unfold Image in *. exfalso. lia.
Qed.

(** X16. Zoomed in to level 18 or more, and before the map has reported its
    bounds, every image has a marker. *)
Theorem every_image_rendered_when_zoomed_in :
  forall (Bounds : Type) (contains : Bounds -> LatLng -> bool)
         (images : list Image) (selectedIndex : Z) (zoomLevel : Q),
    (18 <= zoomLevel)%Q ->
    markersToRender Bounds contains images selectedIndex zoomLevel None =
    Returned (waypointIndices images).
Proof.
  intros Bounds contains images selectedIndex zoomLevel Hzoom.
  rewrite markersToRender_returns. f_equal.
  unfold rendered, sampledWaypointIndices, calculateSampleRate. cbv zeta.
  assert (geq zoomLevel 18 = true) as -> by (apply Qle_bool_iff; exact Hzoom).
  rewrite !forallb_filter_id; [reflexivity| |].
  - apply forallb_forall. intros i _. rewrite Z.rem_1_r.
    rewrite !orb_true_iff. left. right. reflexivity.
  - apply forallb_forall. intros i Hi. unfold visible.
    rewrite !orb_true_iff. right. reflexivity.
Qed.

Lemma every_image_rendered_when_zoomed_in_witness :
  markersToRender unit nothing_in_view sample_images 57 18 None =
  Returned (waypointIndices sample_images).
Proof.
  apply (every_image_rendered_when_zoomed_in
           unit nothing_in_view sample_images 57 18).
  discriminate.
Defined.

(** X17. Sampling thins the markers out: at most
    [ceil(images.length / sampleRate) + 2] markers are rendered, where
    [sampleRate] is the rate of the zoom level. *)
Theorem rendered_marker_count_bound :
  forall (Bounds : Type) (contains : Bounds -> LatLng -> bool)
         (images : list Image) (selectedIndex : Z) (zoomLevel : Q)
         (bounds : option Bounds),
    exists markers : list Z,
      markersToRender Bounds contains images selectedIndex zoomLevel bounds =
        Returned markers /\
      Z.of_nat (List.length markers) <=
      (Z.of_nat (List.length images) + calculateSampleRate zoomLevel - 1)
        / calculateSampleRate zoomLevel + 2.
Proof.
  intros Bounds contains images selectedIndex zoomLevel bounds.
  eexists. split; [apply markersToRender_returns | apply markers_count].
Qed.

Lemma rem_multiple (i r k : Z) :
  0 < k -> (k | r) -> r <> 0 -> Z.rem i r = 0 -> Z.rem i k = 0.
Proof.
  intros Hk Hkr Hr Hrem.
  apply Z.rem_divide in Hrem; [|exact Hr].
  apply Z.rem_divide; [lia|]. exact (Z.divide_trans _ _ _ Hkr Hrem).
Qed.

(** X24. From zoom level 13 on, zooming in to level 17 or more never takes
    a sampled index away: every index sampled at a level in [13, z2] is
    sampled at level [z2 >= 17]. *)
Theorem sampled_indices_kept_when_zooming_in :
  forall (images : list Image) (selectedIndex : Z) (z1 z2 : Q) (i : Z),
    (13 <= z1)%Q -> (z1 <= z2)%Q -> (17 <= z2)%Q ->
    In i (sampledWaypointIndices images selectedIndex z1) ->
    In i (sampledWaypointIndices images selectedIndex z2).
Proof.
  intros images selectedIndex z1 z2 i H13 Hle H17.
  unfold sampledWaypointIndices. cbv zeta. rewrite !filter_In.
  intros [Hin Hkeep]. split; [exact Hin|].
  rewrite !orb_true_iff in *. rewrite !Z.eqb_eq in *.
  destruct Hkeep as [[[H0|Hlast]|Hrem]|Hsel]; auto.
  left. right. revert Hrem. unfold calculateSampleRate.
  repeat match goal with
  | |- context [geq ?z ?k] =>
      let E := fresh "E" in
      destruct (geq z k) eqn:E;
      [apply SamplingFacts.geq_true in E | apply SamplingFacts.geq_false in E]
  end;
  try (exfalso; lra); intro Hrem;
  first [ apply Z.rem_1_r
        | exact Hrem
        | apply (rem_multiple i _ 6 ltac:(lia)) in Hrem;
          [exact Hrem | | lia];
          first [ exists 1; reflexivity | exists 2; reflexivity
                | exists 3; reflexivity | exists 4; reflexivity
                | exists 5; reflexivity ] ].
Qed.

Lemma sampled_indices_kept_when_zooming_in_witness :
  In 30 (sampledWaypointIndices sample_images 57 17).
Proof.
  apply (sampled_indices_kept_when_zooming_in sample_images 57 13 17 30).
  - discriminate.
  - discriminate.
  - discriminate.
  - vm_compute. tauto.
Defined.

End MarkersFacts.

(* ================================================================= *)
(** ** Further properties: markers of the plain map                    *)
(* ================================================================= *)

Module SimpleMapFacts.
Import Types JS Markers SimpleMap.
Local Open Scope Z_scope.

Lemma slice_middle {A : Type} (x z : A) (mid : list A) :
  slice (x :: mid ++ [z]) 1 (-1) = mid.
Proof.
  unfold slice. cbv zeta. simpl List.length. rewrite length_app. simpl List.length.
  replace (Z.ltb 1 0) with false by reflexivity.
  replace (Z.ltb (-1) 0) with true by reflexivity.
  replace (Z.to_nat (Z.min 1 (Z.of_nat (S (List.length mid + 1))))) with 1%nat
    by lia.
  replace (Z.to_nat (Z.max (Z.of_nat (S (List.length mid + 1)) + -1) 0 -
                     Z.min 1 (Z.of_nat (S (List.length mid + 1)))))
    with (List.length mid + 0)%nat by lia.
  simpl skipn. rewrite firstn_app_2. simpl. apply app_nil_r.
Qed.

Lemma slice_single {A : Type} (x : A) : slice [x] 1 (-1) = [].
Proof. reflexivity. Qed.

Lemma waypoints_of_middle (images : list Image) :
  forall (mid front back : list Image) (i : Z),
    images = front ++ mid ++ back ->
    i = Z.of_nat (List.length front) - 1 ->
    0 <= i ->
    map_indexed (waypoint images) i (coordinates mid) =
    Returned
      (map (fun entry =>
              mkMarker (latitude (snd entry), longitude (snd entry))
                       waypointIcon (snd entry) (Some (Z.of_nat (fst entry))))
           (combine (seq (List.length front) (List.length mid)) mid)).
Proof.
  induction mid as [|m mid IH]; intros front back i Himages Hi Hpos.
  - reflexivity.
  - cbn [coordinates map map_indexed]. unfold waypoint at 1. cbv zeta.
    replace (Z.to_nat (i + 1)) with (List.length front) by lia.
    assert (nth_error images (List.length front) = Some m) as ->
      by (rewrite Himages, nth_error_app2, Nat.sub_diag by apply le_n;
          reflexivity).
    cbn [bind].
    fold (coordinates mid).
    rewrite (IH (front ++ [m]) back (i + 1)).
    + cbn [bind List.length seq combine map fst snd].
      rewrite length_app. cbn [List.length].
      replace (List.length front + 1)%nat with (S (List.length front)) by lia.
      replace (i + 1) with (Z.of_nat (List.length front)) by lia.
      reflexivity.
    + rewrite <- app_assoc. exact Himages.
    + rewrite length_app. cbn [List.length]. lia.
    + lia.
Qed.

Lemma combine_seq_snoc {A : Type} (l : list A) (z : A) :
  forall s,
    combine (seq s (List.length (l ++ [z]))) (l ++ [z]) =
    combine (seq s (List.length l)) l ++ [((s + List.length l)%nat, z)].
Proof.
  induction l as [|x l IH]; intro s; simpl.
  - rewrite Nat.add_0_r. reflexivity.
  - rewrite IH. replace (S s + List.length l)%nat with (s + S (List.length l))%nat
      by lia. reflexivity.
Qed.

Lemma marker_at_first (a : Image) (rest : list Image) (shown : icon) :
  marker_at (a :: rest) 0 shown =
  Returned (mkMarker (latitude a, longitude a) shown a None).
Proof. reflexivity. Qed.

Lemma marker_at_last (front : list Image) (z : Image) (shown : icon) :
  marker_at (front ++ [z]) (Z.of_nat (List.length (front ++ [z])) - 1) shown =
  Returned (mkMarker (latitude z, longitude z) shown z None).
Proof.
  unfold marker_at.
  replace (Z.to_nat (Z.of_nat (List.length (front ++ [z])) - 1))
    with (List.length front) by (rewrite length_app; simpl; lia).
  unfold coordinates. rewrite nth_error_map.
  unfold Image in *.
  rewrite nth_error_app2, Nat.sub_diag by apply le_n. reflexivity.
Qed.

(** X18. The plain map renders one marker per image, in image order, each
    at the coordinates of its own image and with that image in its popup:
    the first with the start icon, the last (of two or more) with the end
    icon, the others as waypoints. Only the waypoints select their image
    when clicked. *)
Theorem plain_map_renders_one_marker_per_image :
  forall images : list Image,
    markers images = Returned (one_marker_per_image images).
Proof.
  intro images. unfold markers, one_marker_per_image. cbv zeta.
  destruct images as [|a rest]; [reflexivity|].
  destruct rest as [|b rest']; [reflexivity|].
  destruct (@exists_last _ (b :: rest')) as (mid & z & Hrest);
    [discriminate|].
  rewrite Hrest. clear b rest' Hrest.
  rewrite marker_at_first. cbn [bind].
  assert (coordinates (a :: mid ++ [z]) =
          (latitude a, longitude a) :: coordinates mid ++
          [(latitude z, longitude z)]) as Hcoords
    by (unfold coordinates; simpl; rewrite map_app; reflexivity).
  rewrite Hcoords at 2. rewrite slice_middle.
  rewrite (waypoints_of_middle (a :: mid ++ [z]) mid [a] [z] 0 eq_refl eq_refl)
    by apply Z.le_refl.
  cbn [bind].
  assert (List.length (coordinates (a :: mid ++ [z])) = S (List.length mid + 1)) as Hlen
    by (unfold coordinates; rewrite length_map; simpl; rewrite length_app; reflexivity).
  rewrite Hlen. cbn [Nat.eqb].
  replace (Z.ltb 1 (Z.of_nat (S (List.length mid + 1)))) with true
    by (symmetry; apply Z.ltb_lt; lia).
  replace (S (List.length mid + 1)) with (List.length ((a :: mid) ++ [z])) at 1
    by (rewrite length_app; simpl; lia).
  change (a :: mid ++ [z]) with ((a :: mid) ++ [z]) at 1.
  rewrite marker_at_last. cbn [bind]. f_equal.
  cbn [List.length seq combine map fst snd].
  rewrite combine_seq_snoc, map_app. cbn [map fst snd].
  set (n := S (List.length (mid ++ [z]))).
  assert (n = S (List.length mid + 1)) as Hn
    by (unfold n; rewrite length_app; reflexivity).
  unfold marker_of at 1. cbn [Nat.eqb]. f_equal. f_equal.
  - apply map_ext_in. intros [k img] Hin. cbn [fst snd].
    apply in_combine_l in Hin. apply in_seq in Hin.
    unfold marker_of.
    replace (Nat.eqb k 0) with false by (symmetry; apply Nat.eqb_neq; lia).
    replace (Nat.eqb k (n - 1)) with false
      by (symmetry; apply Nat.eqb_neq; lia).
    reflexivity.
  - unfold marker_of. f_equal.
    replace (Nat.eqb (1 + List.length mid) 0) with false
      by (symmetry; apply Nat.eqb_neq; lia).
    replace (Nat.eqb (1 + List.length mid) (n - 1)) with true
      by (symmetry; apply Nat.eqb_eq; lia).
    reflexivity.
Qed.

End SimpleMapFacts.

(* ================================================================= *)
(** ** Further properties: the GPX viewer and the export               *)
(* ================================================================= *)

Module GpxExportFacts.
Import Types JS DOM Files Gpx Upload GpxFacts GpxExport.

Section Viewer.
Variable parseFromString : string -> string -> Document.

(** The [try] block on a file that reads as a track. *)
Lemma read_track_returns (file : File) (content : string) :
  text file = Returned content ->
  getElementsByTagName (parseFromString content "application/xml")
                       "parsererror" = [] ->
  getElementsByTagName (parseFromString content "application/xml")
                       "trkpt" <> [] ->
  read_track parseFromString file =
  Returned (map point_of_trkpt
              (getElementsByTagName (parseFromString content "application/xml")
                                    "trkpt")).
Proof.
  intros Htext Herr Htrk. unfold read_track. rewrite Htext. simpl.
  rewrite Herr. simpl. rewrite upload_loop_returns. simpl.
  fold point_of_trkpt.
  destruct (getElementsByTagName (parseFromString content "application/xml")
                                 "trkpt"); [congruence | reflexivity].
Qed.

Lemma upload_success_state (file : File) (others : list File) (st : GpxState)
    (points : list GPXPoint) :
  read_track parseFromString file = Returned points ->
  handleGpxUpload parseFromString (Some (file :: others)) st =
  mkGpxState (Some file) points false None.
Proof. intro H. unfold handleGpxUpload. rewrite H. reflexivity. Qed.

End Viewer.



(** *** Export *)

Section Exporting.
Variable buildGPX : GPXData -> outcome string.
Variable createObjectURL : string -> string.
Variable now : Date.

(** The cases of [downloadGPX]. *)
Lemma downloadGPX_cases (st : MapState) :
  (images st = [] /\
   downloadGPX buildGPX createObjectURL now st =
     (setError (Some no_coordinates_message) st, [])) \/
  (images st <> [] /\
   exists message,
     buildGPX (gpx_data now (images st)) = Threw message /\
     downloadGPX buildGPX createObjectURL now st =
       (setError (Some generating_error_message) st, [])) \/
  (images st <> [] /\
   exists content,
     buildGPX (gpx_data now (images st)) = Returned content /\
     downloadGPX buildGPX createObjectURL now st =
       (st,
        [CreateObjectURL content "application/gpx+xml" (createObjectURL content);
         AppendAnchor (createObjectURL content) "photo-route.gpx";
         ClickAnchor (createObjectURL content) "photo-route.gpx";
         RemoveAnchor (createObjectURL content) "photo-route.gpx";
         RevokeObjectURL (createObjectURL content)])).
Proof.
  unfold downloadGPX, generateGPX.
  destruct (images st) as [|img rest] eqn:Himages.
  - left. split; reflexivity.
  - right. simpl Nat.eqb. cbv iota.
    destruct (buildGPX (gpx_data now (img :: rest))) as [content|message].
    + right. split; [discriminate|]. exists content. split; reflexivity.
    + left. split; [discriminate|]. exists message. split; reflexivity.
Qed.

End Exporting.

(** X21. [downloadGPX] offers a file exactly when there is at least one
    image and gpx-builder returns: then the state is left as it is
    (a previous error included), the file is named photo-route.gpx, its
    content is what gpx-builder returned for the images, and the object URL
    made for it is revoked after the click. In every other case nothing is
    offered and the error is set; the images and the selection are never
    changed. *)
Theorem downloadGPX_offers_the_route_or_reports :
  forall (buildGPX : GPXData -> outcome string)
         (createObjectURL : string -> string) (now : Date) (st : MapState),
    let st' := fst (downloadGPX buildGPX createObjectURL now st) in
    let effects := snd (downloadGPX buildGPX createObjectURL now st) in
    images st' = images st /\
    selectedImageIndex st' = selectedImageIndex st /\
    ((exists content,
        images st <> [] /\
        buildGPX (gpx_data now (images st)) = Returned content /\
        st' = st /\
        effects =
          [CreateObjectURL content "application/gpx+xml" (createObjectURL content);
           AppendAnchor (createObjectURL content) "photo-route.gpx";
           ClickAnchor (createObjectURL content) "photo-route.gpx";
           RemoveAnchor (createObjectURL content) "photo-route.gpx";
           RevokeObjectURL (createObjectURL content)]) \/
     ((images st = [] \/
       exists message, buildGPX (gpx_data now (images st)) = Threw message) /\
      effects = [] /\ error st' <> None)).
Proof.
  intros buildGPX createObjectURL now st. cbv zeta.
  destruct (downloadGPX_cases buildGPX createObjectURL now st)
    as [(Hnil & ->) | [(Hne & message & Hb & ->) | (Hne & content & Hb & ->)]];
    simpl; repeat split.
  - right. repeat split; [left; exact Hnil | discriminate].
  - right. repeat split; [right; exists message; exact Hb | discriminate].
  - left. exists content. repeat split; assumption.
Qed.

(** X22. A route that was exported can be viewed: when [downloadGPX]
    offers a file, gpx-builder and the XML parser write and read back the
    track of the images, and the parsed text has no [parsererror] element,
    then uploading a file with that content to the viewer shows, in order,
    exactly the coordinates of the images, and no error. *)
Theorem exported_route_can_be_viewed :
  forall (buildGPX : GPXData -> outcome string)
         (createObjectURL : string -> string)
         (parseFromString : string -> string -> Document) (now : Date)
         (st : MapState) (content mime url : string)
         (file : File) (others : list File) (viewer : GpxState),
    In (CreateObjectURL content mime url)
       (snd (downloadGPX buildGPX createObjectURL now st)) ->
    text file = Returned content ->
    track_read_back parseFromString "application/xml"%string content
                    (gpx_data now (images st)) ->
    getElementsByTagName (parseFromString content "application/xml"%string)
                         "parsererror" = [] ->
    let viewer' :=
      handleGpxUpload parseFromString (Some (file :: others)) viewer in
    map (fun p => (gpx_lat p, gpx_lon p)) (gpxPoints viewer') =
      coordinates_of (images st) /\
    gpxPoints viewer' <> [] /\
    gpxError viewer' = None.
Proof.
  intros buildGPX createObjectURL parseFromString now st content mime url
         file others viewer Hin Htext Htrack Herr. cbv zeta.
  assert (images st <> []) as Hne.
  { destruct (downloadGPX_cases buildGPX createObjectURL now st)
      as [(_ & Heq) | [(_ & _ & _ & Heq) | (Hne & _)]];
      [rewrite Heq in Hin; contradiction .. | exact Hne]. }
  unfold track_read_back in Htrack.
  assert (getElementsByTagName
            (parseFromString content "application/xml"%string) "trkpt" <> [])
    as Htrk.
  { intro Hnil. rewrite Hnil in Htrack. inversion Htrack as [Hpoints|].
    unfold gpx_data in Hpoints. simpl in Hpoints.
    destruct (images st); [congruence | discriminate]. }
  rewrite (upload_success_state parseFromString file others viewer _
             (read_track_returns parseFromString file content Htext Herr Htrk)).
  simpl. repeat split.
  - rewrite map_map. unfold point_of_trkpt. simpl.
    rewrite (written_points_read_back _ _ Htrack).
    unfold gpx_data, coordinates_of. simpl. rewrite map_map. reflexivity.
  - intro Hnil. apply map_eq_nil in Hnil. contradiction.
Qed.

Lemma exported_route_can_be_viewed_witness :
  let viewer' :=
    handleGpxUpload sample_parseFromString (Some [sample_gpx_file])
                    (mkGpxState None [] false None) in
  map (fun p => (gpx_lat p, gpx_lon p)) (gpxPoints viewer') =
    coordinates_of sample_route /\
  gpxPoints viewer' <> [] /\
  gpxError viewer' = None.
Proof.
  apply (exported_route_can_be_viewed
           (fun _ => Returned sample_text) (fun _ => "blob:route"%string)
           sample_parseFromString 0%Z
           (mkMapState sample_route 0%Z false None)
           sample_text "application/gpx+xml"%string "blob:route"%string
           sample_gpx_file [] (mkGpxState None [] false None)).
  - left. reflexivity.
  - reflexivity.
  - unfold track_read_back. vm_compute getElementsByTagName.
    simpl segmentPoints.
    repeat constructor;
      (eexists; eexists; unfold renders;
       repeat split;
       first [ reflexivity | discriminate | vm_compute; reflexivity ]).
  - reflexivity.
Defined.

(** X20. The viewer and [parseGPX] agree: when the XML parser reads a text
    the same under both MIME types and the viewer shows a track for it, the
    coordinates of the viewer's points are, in order, the pairs [parseGPX]
    returns for that text. *)
Theorem viewer_agrees_with_parseGPX :
  forall (parseFromString : string -> string -> Document)
         (file : File) (others : list File) (st : GpxState) (content : string),
    text file = Returned content ->
    parseFromString content "text/xml"%string =
      parseFromString content "application/xml"%string ->
    gpxPoints (handleGpxUpload parseFromString (Some (file :: others)) st)
      <> [] ->
    parseGPX parseFromString content =
    Returned
      (map (fun p => (gpx_lat p, gpx_lon p))
           (gpxPoints
              (handleGpxUpload parseFromString (Some (file :: others)) st))).
Proof.
  intros parseFromString file others st content Htext Hmime Hshown.
  destruct (read_track_cases parseFromString file)
    as [(Htrack & _) | (_ & message & Hthrow)].
  - destruct Htrack as (content' & Htext' & Herr & Htrk).
    assert (content' = content) as -> by congruence.
    rewrite (upload_success_state parseFromString file others st _
               (read_track_returns parseFromString file content Htext Herr Htrk)).
    simpl gpxPoints. rewrite parseGPX_returns, Hmime, map_map. reflexivity.
  - exfalso. apply Hshown. unfold handleGpxUpload. rewrite Hthrow. reflexivity.
Qed.

Lemma viewer_agrees_with_parseGPX_witness :
  parseGPX sample_parseFromString sample_text =
  Returned
    (map (fun p => (gpx_lat p, gpx_lon p))
         (gpxPoints
            (handleGpxUpload sample_parseFromString (Some [sample_gpx_file])
                             (mkGpxState None [] false None)))).
Proof.
  apply (viewer_agrees_with_parseGPX
           sample_parseFromString sample_gpx_file []
           (mkGpxState None [] false None) sample_text).
  - reflexivity.
  - reflexivity.
  - vm_compute. discriminate.
Defined.

End GpxExportFacts.

(* ================================================================= *)
(** ** Further properties: the metadata viewer                         *)
(* ================================================================= *)

Module MetadataTabFacts.
Import Types JS Files MetadataTab.

(** X23. After [handleMetadataUpload] on a file, whatever the tab showed
    before: the file is recorded, the loading flag is off, the metadata
    shown is the one extracted from this file if there is one, and the
    error is set exactly when no metadata is shown. *)
Theorem metadata_upload_shows_metadata_or_error :
  forall (file : File) (others : list File) (st : MetadataState),
    let st' := handleMetadataUpload (Some (file :: others)) st in
    metadataImage st' = Some file /\
    metadataLoading st' = false /\
    (forall m, metadata st' = Some m <-> exifr_parse file = Returned (Some m)) /\
    (metadata st' = None <-> metadataError st' <> None).
Proof.
  intros file others st. cbv zeta. unfold handleMetadataUpload.
  destruct (exifr_parse file) as [[m|]|message]; simpl; repeat split;
    first [ congruence | discriminate
          | intro H; exfalso; apply H; reflexivity ].
Qed.

End MetadataTabFacts.
